(** * ResilientAPIClient, DataValidator and RiskAssessment (src/index.js)

    A shallow embedding of [src/index.js]: the HTTP client (the
    constructor, [getBackoffDelay], [throttle], [sleep], [fetchWithRetries]
    and [fetchAllPatients]), [DataValidator.validateBloodPressure] and
    [DataValidator.validateAge], and the three scores of [RiskAssessment];
    and of the skeleton of the client in [src/unnamed/part_000].
    [validateTemperature] rests on [parseFloat] and on the rounding of
    doubles and is left out, as is [calculateTotalRisk], whose body is the
    statement [pass;].

    Asynchronous code is sequential here (every promise is awaited at once),
    so an [async] method is a computation in a state-and-exception monad
    over a [World]: the clock, the client's [lastRequestTime], the random
    source behind [Math.random], the remote server behind the global
    [fetch], and the trace of the requests and timer waits performed so far.
    Numbers are exact: integers where the code counts, rationals for times
    and delays. [console.log] and [console.error] calls only print and are
    left out. *)

From Stdlib Require Import ZArith QArith Qminmax Bool List Ascii String Lia.
From Stdlib Require Import DecimalString DecimalPos DecimalZ Lqa.
Import ListNotations.

#[local] Set Warnings "-register-all".
Local Open Scope string_scope.
Local Open Scope Z_scope.

(** ** JavaScript values that the client handles *)

(** The result of [response.json()]. *)
Inductive json : Type :=
| JNull
| JBool (b : bool)
| JNum (q : Q)
| JStr (s : string)
| JArr (items : list json)
| JObj (fields : list (string * json)).

(** An [Error] object: its constructor's name and its [message]. *)
Record JsError : Type := mkError { err_name : string; err_message : string }.

(** ToBoolean on a parsed body, as used by [data || []]. *)
Definition truthy (v : json) : bool :=
  match v with
  | JNull => false
  | JBool b => b
  | JNum q => negb (Qeq_bool q 0)
  | JStr s => negb (String.eqb s "")
  | JArr _ => true
  | JObj _ => true
  end.

(** [a || b] on parsed bodies. *)
Definition js_or (a b : json) : json := if truthy a then a else b.

(** [x || d] on an optional numeric option of the constructor:
    [undefined] and [0] are falsy. *)
Definition or_default (x : option Z) (d : Z) : Z :=
  match x with
  | Some v => if v =? 0 then d else v
  | None => d
  end.

Definition or_defaultQ (x : option Q) (d : Q) : Q :=
  match x with
  | Some v => if Qeq_bool v 0 then d else v
  | None => d
  end.

(** Own property lookup in a parsed object; [JSON.parse] keeps the last
    of duplicate keys. *)
Fixpoint lookup_field (k : string) (fs : list (string * json)) : option json :=
  match fs with
  | [] => None
  | (k', v) :: rest =>
      match lookup_field k rest with
      | Some v' => Some v'
      | None => if String.eqb k k' then Some v else None
      end
  end.

(** [data.hasNext]: [None] is [undefined]. Reading a property of [null]
    throws; arrays, strings, numbers and booleans coming from JSON have no
    such property. *)
Definition get_hasNext (data : json) : JsError + option json :=
  match data with
  | JNull =>
      inl (mkError "TypeError"
             "Cannot read properties of null (reading 'hasNext')")
  | JObj fs => inr (lookup_field "hasNext" fs)
  | _ => inr None
  end.

(** [v === false] *)
Definition strict_eq_false (v : option json) : bool :=
  match v with
  | Some (JBool false) => true
  | _ => false
  end.

(** [s.includes(needle)] *)
Definition includes (s needle : string) : bool :=
  match String.index 0 needle s with
  | Some _ => true
  | None => false
  end.

(** Decimal rendering of an integer inside a template literal. *)
Definition show_Z (z : Z) : string := NilZero.string_of_int (Z.to_int z).

(** ** The world outside the client *)

(** An HTTP response: [status], and the parsed body, [None] when
    [response.json()] rejects because the body is not JSON. *)
Record Response : Type := mkResponse { status : Z; body : option json }.

(** [response.ok] *)
Definition ok (r : Response) : bool := (200 <=? status r) && (status r <=? 299).

(** What the global [fetch] does with a request: it resolves with a
    response or rejects (connection reset, timeout ...). *)
Inductive Outcome : Type :=
| Responds (r : Response)
| Rejects (e : JsError).

(** Which call site called [this.sleep]. *)
Inductive SleepKind : Type := ThrottleWait | BackoffWait.

Inductive Event : Type :=
| EvRequest (url : string)
| EvSleep (kind : SleepKind) (ms : Q).

(** [transport n url] is the server's answer to the request number [n]
    (from 0) when it asks for [url]; [rng n] is the value of the [n]-th call
    of [Math.random]; [trace] is newest first. *)
Record World : Type := mkWorld {
  transport : nat -> string -> Outcome;
  rng : nat -> Q;
  draws : nat;
  clock : Q;
  lastRequestTime : Q;
  trace : list Event
}.

Definition is_request (e : Event) : bool :=
  match e with EvRequest _ => true | _ => false end.

Definition is_backoff (e : Event) : bool :=
  match e with EvSleep BackoffWait _ => true | _ => false end.

(** Number of HTTP requests issued so far. *)
Definition requests (w : World) : nat := List.length (filter is_request (trace w)).

(** Number of backoff waits so far. *)
Definition backoff_waits (w : World) : nat :=
  List.length (filter is_backoff (trace w)).

(** ** The monad of [async] methods *)

Inductive Result (A : Type) : Type :=
| Ok (a : A)
| Throw (e : JsError).
Arguments Ok {A} a.
Arguments Throw {A} e.

Definition M (A : Type) : Type := World -> Result A * World.

Definition ret {A} (a : A) : M A := fun w => (Ok a, w).

Definition throw {A} (e : JsError) : M A := fun w => (Throw e, w).

Definition bind {A B} (m : M A) (k : A -> M B) : M B :=
  fun w =>
    match m w with
    | (Ok a, w') => k a w'
    | (Throw e, w') => (Throw e, w')
    end.

(** [try { m } catch (error) { h error }] *)
Definition try_catch {A} (m : M A) (h : JsError -> M A) : M A :=
  fun w =>
    match m w with
    | (Ok a, w') => (Ok a, w')
    | (Throw e, w') => h e w'
    end.

Declare Scope js_scope.
Delimit Scope js_scope with js.
Notation "x <- m ;; k" := (bind m (fun x => k))
  (at level 100, m at next level, right associativity) : js_scope.
Notation "m ;;; k" := (bind m (fun _ => k))
  (at level 100, right associativity) : js_scope.
Local Open Scope js_scope.

(** [Math.random()] *)
Definition Math_random : M Q :=
  fun w =>
    (Ok (rng w (draws w)),
     mkWorld (transport w) (rng w) (S (draws w)) (clock w)
       (lastRequestTime w) (trace w)).

(** [Date.now()] *)
Definition Date_now : M Q := fun w => (Ok (clock w), w).

(** The global [fetch(url, ...)]. *)
Definition fetch (url : string) : M Response :=
  fun w =>
    let w' := mkWorld (transport w) (rng w) (draws w) (clock w)
                (lastRequestTime w) (EvRequest url :: trace w) in
    match transport w (requests w) url with
    | Responds r => (Ok r, w')
    | Rejects e => (Throw e, w')
    end.

(** [response.json()] *)
Definition response_json (r : Response) : M json :=
  match body r with
  | Some v => ret v
  | None => throw (mkError "SyntaxError" "Unexpected token in JSON")
  end.

(** ** The client *)

Module ResilientAPIClient.

(** The [options] argument of the constructor; [None] is an absent key. *)
Record Options : Type := mkOptions {
  opt_maxRetries : option Z;
  opt_initialDelay : option Z;
  opt_requestsPerSecond : option Q;
  opt_pageSize : option Z
}.

(** The fields that the constructor sets and no method changes.
    [this.lastRequestTime] is mutable and lives in the [World]. *)
Record Client : Type := mkClient {
  baseURL : string;
  apiKey : string;
  maxRetries : Z;
  initialDelay : Z;
  requestsPerSecond : Q;
  pageSize : Z
}.

Definition constructor (baseURL apiKey : string) (options : Options) : Client :=
  mkClient baseURL apiKey
    (or_default (opt_maxRetries options) 5)
    (or_default (opt_initialDelay options) 1000)
    (or_defaultQ (opt_requestsPerSecond options) 2)
    (or_default (opt_pageSize options) 10).

Definition Qltb (a b : Q) : bool := negb (Qle_bool b a).

(** [sleep(ms)]: the timer of [node:timers/promises], idealised: the clock
    moves on by [ms] when [ms] is positive. *)
Definition sleep (kind : SleepKind) (ms : Q) : M unit :=
  fun w =>
    (Ok tt,
     mkWorld (transport w) (rng w) (draws w)
       (if Qltb 0 ms then (clock w + ms)%Q else clock w)
       (lastRequestTime w) (EvSleep kind ms :: trace w)).

Definition set_lastRequestTime (t : Q) : M unit :=
  fun w =>
    (Ok tt,
     mkWorld (transport w) (rng w) (draws w) (clock w) t (trace w)).

(** The deterministic part of [getBackoffDelay]: [random] is the value of
    [Math.random()]. Numbers are exact rationals. *)
Definition backoff_delay (c : Client) (attempt : nat) (random : Q) : Q :=
  let exponDelay := (inject_Z (initialDelay c) * inject_Z (2 ^ Z.of_nat attempt))%Q in
  let jitter := (random * 1000)%Q in
  Qmin (exponDelay + jitter) 30000.

Definition getBackoffDelay (c : Client) (attempt : nat) : M Q :=
  random <- Math_random ;;
  ret (backoff_delay c attempt random).

Definition throttle (c : Client) : M unit :=
  let minInterval := (1000 / requestsPerSecond c)%Q in
  now <- Date_now ;;
  fun w =>
    let timeSinceLastRequest := (now - lastRequestTime w)%Q in
    ((if Qltb timeSinceLastRequest minInterval
      then sleep ThrottleWait (minInterval - timeSinceLastRequest)
      else ret tt) ;;;
     now' <- Date_now ;;
     set_lastRequestTime now') w.

(** [this.fetchWithRetry(url, attempt + 1)]. The class declares
    [fetchWithRetries], [fetchAllPatients], [getBackoffDelay], [throttle]
    and [sleep] and extends nothing, so [this.fetchWithRetry] is
    [undefined] and calling it throws. *)
Definition fetchWithRetry (url : string) (attempt : nat) : M json :=
  throw (mkError "TypeError" "this.fetchWithRetry is not a function").

Definition fetchWithRetries (c : Client) (url : string) (attempt : nat) : M json :=
  try_catch
    (throttle c ;;;
     response <- fetch url ;;
     if status response =? 429 then
       delay <- getBackoffDelay c attempt ;;
       sleep BackoffWait delay ;;;
       fetchWithRetry url (attempt + 1)
     else if (500 <=? status response) && (Z.of_nat attempt <? maxRetries c) then
       delay <- getBackoffDelay c attempt ;;
       sleep BackoffWait delay ;;;
       fetchWithRetry url (attempt + 1)
     else if (status response =? 401) || (status response =? 403) then
       throw (mkError "Error" "Authentication failed. Check API key.")
     else if negb (ok response) then
       throw (mkError "Error"
                ("Request failed with status " ++ show_Z (status response)))
     else
       response_json response)
    (fun error =>
       if includes (err_message error) "Authentication failed" then
         throw error
       else if Z.of_nat attempt <? maxRetries c then
         delay <- getBackoffDelay c attempt ;;
         sleep BackoffWait delay ;;;
         fetchWithRetry url (attempt + 1)
       else
         throw error).

(** The page request of [fetchAllPatients]:
    [`${this.baseURL}?page=${page}&limit=${this.pageSize}`]. *)
Definition page_url (c : Client) (page : Z) : string :=
  baseURL c ++ "?page=" ++ show_Z page ++ "&limit=" ++ show_Z (pageSize c).

(** The local variables of [fetchAllPatients]. *)
Record Locals : Type := mkLocals {
  allPatients : list json;
  page : Z;
  moreData : bool
}.

(** How a statement list ends: it runs through, leaves the loop by
    [break], throws, or leaves the method by [return]. *)
Inductive Completion : Type :=
| Normal
| Break
| Threw (e : JsError)
| Return (v : list json).

(** What [fetchAllPatients] resolves to: [Undefined] when control reaches
    the end of the method body. *)
Inductive Resolved : Type :=
| Undefined
| Array (v : list json).

(** Lines 81-100: the statements of the [try] block after the fetch. They
    touch the locals only, so the locals as of the point of completion are
    returned with it. *)
Definition process_page (c : Client) (l : Locals) (data : json)
  : Locals * Completion :=
  let patients := js_or data (JArr []) in
  match patients with
  | JArr (p :: ps) =>
      let l1 := mkLocals (allPatients l ++ p :: ps) (page l) (moreData l) in
      let l2 := mkLocals (allPatients l1) (page l1)
                  (Z.of_nat (List.length (p :: ps)) =? pageSize c) in
      match get_hasNext data with
      | inl e => (l2, Threw e)
      | inr hasNext =>
          let l3 := if strict_eq_false hasNext
                    then mkLocals (allPatients l2) (page l2) false
                    else l2 in
          (mkLocals (allPatients l3) (page l3 + 1) (moreData l3), Normal)
      end
  | _ => (mkLocals (allPatients l) (page l) false, Break)
  end.

(** Lines 75-107: one run of the body of the [while] loop. *)
Definition loop_body (c : Client) (l : Locals) : M (Locals * Completion) :=
  fun w =>
    let url := page_url c (page l) in
    let '(l', completion, w') :=
      match fetchWithRetries c url 0 w with
      | (Ok data, w1) => (process_page c l data, w1)
      | (Throw e, w1) => (l, Threw e, w1)
      end in
    match completion with
    | Break => (Ok (l', Break), w')
    | Threw _ =>
        let l'' := mkLocals (allPatients l') (page l') false in
        (Ok (l'', Return (allPatients l'')), w')
    | _ => (Ok (l', Return (allPatients l')), w')
    end.

(** [while (moreData) { ... }] followed by the end of the method. [None]:
    the fuel ran out. *)
Fixpoint while_moreData (fuel : nat) (c : Client) (l : Locals)
  : M (option Resolved) :=
  match fuel with
  | O => ret None
  | S fuel' =>
      if moreData l then
        r <- loop_body c l ;;
        match r with
        | (_, Return v) => ret (Some (Array v))
        | (_, Break) => ret (Some Undefined)
        | (l', _) => while_moreData fuel' c l'
        end
      else ret (Some Undefined)
  end.

Definition fetchAllPatients (fuel : nat) (c : Client) : M (option Resolved) :=
  while_moreData fuel c (mkLocals [] 1 true).

End ResilientAPIClient.

(** ** DataValidator *)

Module DataValidator.

(** A Rocq string stands for the JavaScript string with the same code
    units, all below 256. *)

(** The value of a decimal digit, a code unit from 48 to 57; [None] for any
    other code unit. *)
Definition digit (ch : ascii) : option Z :=
  let code := Z.of_nat (nat_of_ascii ch) in
  if (48 <=? code) && (code <=? 57) then Some (code - 48) else None.

(** [\d] *)
Definition is_digit (ch : ascii) : bool :=
  match digit ch with Some _ => true | None => false end.

(** The longest prefix of digits of [s] and what follows it: what a greedy
    [\d*] consumes. Where the pattern goes on with [\/] or [$], giving back
    digits cannot help, so this is also the only way [(\d+)?] can match. *)
Fixpoint span_digits (s : string) : string * string :=
  match s with
  | EmptyString => (EmptyString, EmptyString)
  | String ch t =>
      if is_digit ch
      then let (ds, rest) := span_digits t in (String ch ds, rest)
      else (EmptyString, s)
  end.

(** The number that a string of decimal digits denotes, on top of [acc]. *)
Fixpoint digits_value (acc : Z) (ds : string) : Z :=
  match ds with
  | EmptyString => acc
  | String ch t =>
      digits_value (10 * acc + match digit ch with Some v => v | None => 0 end) t
  end.

(** A capture group of [(\d+)?]: [undefined] when it matched nothing. *)
Definition group (ds : string) : option string :=
  match ds with EmptyString => None | _ => Some ds end.

(** [s.match(/^(\d+)?\/(\d+)?$/)]: the two groups, or [None] for [null]. *)
Definition match_bp (s : string) : option (option string * option string) :=
  let (d1, rest) := span_digits s in
  match rest with
  | String "/" rest' =>
      let (d2, tail) := span_digits rest' in
      match tail with
      | EmptyString => Some (group d1, group d2)
      | _ => None
      end
  | _ => None
  end.

(** WhiteSpace and LineTerminator code units below 256: TAB, LF, VT, FF,
    CR, SP and NBSP. *)
Definition is_whitespace (ch : ascii) : bool :=
  existsb (Nat.eqb (nat_of_ascii ch)) [9; 10; 11; 12; 13; 32; 160]%nat.

Fixpoint trim_start (s : string) : string :=
  match s with
  | EmptyString => EmptyString
  | String ch t => if is_whitespace ch then trim_start t else s
  end.

(** [parseInt(s, 10)]; [None] is [NaN]. Leading white space is skipped, one
    sign is read, then the longest run of digits; what follows the digits is
    ignored. The integer is exact, as the JavaScript number is up to 2^53. *)
Definition parseInt (s : string) : option Z :=
  let s1 := trim_start s in
  let '(negative, s2) :=
    match s1 with
    | String "-" t => (true, t)
    | String "+" t => (false, t)
    | _ => (false, s1)
    end in
  let (ds, _) := span_digits s2 in
  match ds with
  | EmptyString => None
  | _ => Some (if negative then - digits_value 0 ds else digits_value 0 ds)
  end.

Record BloodPressure : Type := mkBloodPressure {
  systolic : option Z;
  diastolic : option Z;
  isValid : bool
}.

(** The argument is any value of a parsed record field; [None] is
    [undefined], the value of a missing field. A group that matched is a
    non-empty string of digits, on which [parseInt] is a number and not
    [NaN]; so in [systolic] and [diastolic] [None] is [null]. *)
Definition validateBloodPressure (bpString : option json) : BloodPressure :=
  match bpString with
  | Some (JStr s) =>
      if String.eqb s "" then mkBloodPressure None None false
      else
        match match_bp s with
        | None => mkBloodPressure None None false
        | Some (m1, m2) =>
            let systolic :=
              match m1 with Some ds => parseInt ds | None => None end in
            let diastolic :=
              match m2 with Some ds => parseInt ds | None => None end in
            let isValid :=
              match systolic, diastolic with
              | Some _, Some _ => true
              | _, _ => false
              end in
            mkBloodPressure systolic diastolic isValid
        end
  | _ => mkBloodPressure None None false
  end.

(** The result of [validateAge]: [value] and [isValid]. *)
Record Age : Type := mkAge { value : option Z; age_isValid : bool }.

(** [age] is the string that [parseInt] converts its argument to. *)
Definition validateAge (age : string) : Age :=
  let numValue := parseInt age in
  let isValid :=
    match numValue with
    | None => false
    | Some n => (n >? 0) && (n <? 120)
    end in
  mkAge (if isValid then numValue else None) isValid.

End DataValidator.

(** ** RiskAssessment *)

Module RiskAssessment.

(** [x === null] on a validated field ([None] is [null]). *)
Definition is_null (x : option Z) : bool :=
  match x with None => true | Some _ => false end.

(** ToNumber on a validated field: [null] converts to [0]. *)
Definition to_number (x : option Z) : Z :=
  match x with None => 0 | Some v => v end.

(** [x < k] on a validated field. *)
Definition js_lt (x : option Z) (k : Z) : bool := to_number x <? k.

(** A JavaScript number: a finite value, an infinity or [NaN]. *)
Inductive number : Type :=
| Finite (q : Q)
| PosInfinity
| NegInfinity
| NaN.

(** An argument of [calculateBloodPressureRisk]: [null] or a number. *)
Inductive value : Type :=
| Null
| Number (x : number).

(** A validated field, an integer or [null], as such an argument. *)
Definition of_field (x : option Z) : value :=
  match x with
  | None => Null
  | Some z => Number (Finite (inject_Z z))
  end.

(** [v === null] *)
Definition value_is_null (v : value) : bool :=
  match v with Null => true | Number _ => false end.

(** ToNumber: [null] converts to [0]. *)
Definition ToNumber (v : value) : number :=
  match v with Null => Finite 0 | Number x => x end.

(** [x < y] on numbers: false as soon as one of them is [NaN]. *)
Definition number_lt (x y : number) : bool :=
  match x, y with
  | NaN, _ => false
  | _, NaN => false
  | Finite a, Finite b => ResilientAPIClient.Qltb a b
  | Finite _, PosInfinity => true
  | Finite _, NegInfinity => false
  | PosInfinity, _ => false
  | NegInfinity, NegInfinity => false
  | NegInfinity, _ => true
  end.

(** [x >= y] on numbers: false as soon as one of them is [NaN], otherwise
    the negation of [x < y]. *)
Definition number_ge (x y : number) : bool :=
  match x, y with
  | NaN, _ => false
  | _, NaN => false
  | _, _ => negb (number_lt x y)
  end.

(** [v < k] and [v >= k] for an argument [v] and a numeric literal [k]. *)
Definition value_lt (v : value) (k : Q) : bool :=
  number_lt (ToNumber v) (Finite k).
Definition value_ge (v : value) (k : Q) : bool :=
  number_ge (ToNumber v) (Finite k).

(** The [return] statement that [calculateBloodPressureRisk] executes: its
    source line and the value returned; [None] when control reaches the end
    of the body and the call evaluates to [undefined]. The arguments are
    [null] or any number, [NaN] and the infinities included. *)
Definition bp_return (systolic diastolic : value) : option (nat * Z) :=
  if value_is_null systolic || value_is_null diastolic then Some (175%nat, 0)
  else if value_lt systolic 120 && value_lt diastolic 80 then Some (176%nat, 0)
  else if value_lt systolic 130 && value_lt diastolic 80 then Some (177%nat, 1)
  else if value_lt systolic 140 || value_lt diastolic 90 then Some (178%nat, 2)
  else if value_ge systolic 140 || value_ge diastolic 90 then Some (179%nat, 3)
  else None.

Definition calculateBloodPressureRisk (systolic diastolic : value)
  : option Z :=
  option_map snd (bp_return systolic diastolic).

(** [temperature] is the [value] of [validateTemperature]'s result, a
    finite number or [null]; [None] in the result is [undefined]. *)
Definition calculateTemperatureRisk (temperature : option Q) : option Z :=
  match temperature with
  | None => Some 0
  | Some t =>
      if ResilientAPIClient.Qltb t (995 # 10) then Some 0
      else if ResilientAPIClient.Qltb t 101 then Some 1
      else if Qle_bool 101 t then Some 2
      else None
  end.

(** [age] is the [value] of [validateAge]'s result, an integer or [null]. *)
Definition calculateAgeRisk (age : option Z) : option Z :=
  if is_null age then Some 0
  else if js_lt age 40 then Some 0
  else if to_number age <=? 65 then Some 1
  else if to_number age >? 65 then Some 2
  else None.

End RiskAssessment.

Import ResilientAPIClient RiskAssessment.

(** ** The skeleton of the client (src/unnamed/part_000)

    The same class before [throttle] and the backoff were written:
    [fetchWithRetries], [fetchAllPatients] and the constructor are the ones
    of [src/index.js], the bodies of [throttle] and of [getBackoffDealy]
    are the statement [pass;], and the method that [fetchWithRetries] calls
    for its delay, [getBackoffDelay], is not defined under that name. *)

Module Skeleton.

(** [pass;] reads a variable that is declared nowhere. *)
Definition pass {A} : M A :=
  throw (mkError "ReferenceError" "pass is not defined").

Definition throttle (c : Client) : M unit := pass.

(** [this.getBackoffDelay(attempt)]: the class spells its method
    [getBackoffDealy], so the call throws. *)
Definition getBackoffDelay (c : Client) (attempt : nat) : M Q :=
  throw (mkError "TypeError" "this.getBackoffDelay is not a function").

Definition fetchWithRetries (c : Client) (url : string) (attempt : nat) : M json :=
  try_catch
    (throttle c ;;;
     response <- fetch url ;;
     if status response =? 429 then
       delay <- getBackoffDelay c attempt ;;
       sleep BackoffWait delay ;;;
       fetchWithRetry url (attempt + 1)
     else if (500 <=? status response) && (Z.of_nat attempt <? maxRetries c) then
       delay <- getBackoffDelay c attempt ;;
       sleep BackoffWait delay ;;;
       fetchWithRetry url (attempt + 1)
     else if (status response =? 401) || (status response =? 403) then
       throw (mkError "Error" "Authentication failed. Check API key.")
     else if negb (ok response) then
       throw (mkError "Error"
                ("Request failed with status " ++ show_Z (status response)))
     else
       response_json response)
    (fun error =>
       if includes (err_message error) "Authentication failed" then
         throw error
       else if Z.of_nat attempt <? maxRetries c then
         delay <- getBackoffDelay c attempt ;;
         sleep BackoffWait delay ;;;
         fetchWithRetry url (attempt + 1)
       else
         throw error).

Definition loop_body (c : Client) (l : Locals) : M (Locals * Completion) :=
  fun w =>
    let url := page_url c (page l) in
    let '(l', completion, w') :=
      match fetchWithRetries c url 0 w with
      | (Ok data, w1) => (process_page c l data, w1)
      | (Throw e, w1) => (l, Threw e, w1)
      end in
    match completion with
    | Break => (Ok (l', Break), w')
    | Threw _ =>
        let l'' := mkLocals (allPatients l') (page l') false in
        (Ok (l'', Return (allPatients l'')), w')
    | _ => (Ok (l', Return (allPatients l')), w')
    end.

Fixpoint while_moreData (fuel : nat) (c : Client) (l : Locals)
  : M (option Resolved) :=
  match fuel with
  | O => ret None
  | S fuel' =>
      if moreData l then
        r <- loop_body c l ;;
        match r with
        | (_, Return v) => ret (Some (Array v))
        | (_, Break) => ret (Some Undefined)
        | (l', _) => while_moreData fuel' c l'
        end
      else ret (Some Undefined)
  end.

Definition fetchAllPatients (fuel : nat) (c : Client) : M (option Resolved) :=
  while_moreData fuel c (mkLocals [] 1 true).

End Skeleton.

(** ** Test servers and worlds *)

(** A world at the start of a run: nothing requested, nothing drawn,
    [lastRequestTime] as the constructor leaves it. *)
Definition initial_world (tr : nat -> string -> Outcome) (r : nat -> Q)
  (now : Q) : World :=
  mkWorld tr r 0 now 0 [].

(** A server that answers every request with the same status and no
    parseable body. *)
Definition always_status (st : Z) : nat -> string -> Outcome :=
  fun _ _ => Responds (mkResponse st None).

(** A server that is rate limiting the first two requests and then answers
    [payload]. *)
Definition rate_limited_twice (payload : json) : nat -> string -> Outcome :=
  fun n _ =>
    match n with
    | 0%nat | 1%nat => Responds (mkResponse 429 None)
    | _ => Responds (mkResponse 200 (Some payload))
    end.

(** A server that holds [pages] and answers the request for page [k] (from
    1) of client [c] with the bare array of its records, an empty array
    past the last page, and 404 for any other URL. *)
Fixpoint serve_from (c : Client) (k : Z) (pages : list (list json))
  (url : string) : Outcome :=
  match pages with
  | [] => Responds (mkResponse 404 None)
  | p :: rest =>
      if String.eqb url (page_url c k)
      then Responds (mkResponse 200 (Some (JArr p)))
      else serve_from c (k + 1) rest url
  end.

Definition serve_pages (c : Client) (pages : list (list json))
  : nat -> string -> Outcome :=
  fun _ url => serve_from c 1 pages url.

(** A server whose every page is the same body. *)
Definition always_body (data : json) : nat -> string -> Outcome :=
  fun _ _ => Responds (mkResponse 200 (Some data)).

Definition no_options : Options := mkOptions None None None None.

Definition default_client : Client :=
  constructor "https://api.example/patients" "key" no_options.

(** [n] distinct records. *)
Definition records (tag : Z) (n : nat) : list json :=
  map (fun i => JObj [("patient_id", JNum (inject_Z (tag + Z.of_nat i)))])
    (seq 0 n).

(** ** Errors, worlds and statements used by the properties *)

(** The error of calling the missing method, and the error of line 43. *)
Definition the_TypeError : JsError :=
  mkError "TypeError" "this.fetchWithRetry is not a function".

Definition the_auth_Error : JsError :=
  mkError "Error" "Authentication failed. Check API key.".

(** [w'] is [w] after some activity that issued no request and waited for
    no backoff. *)
Definition quiet (w w' : World) : Prop :=
  transport w' = transport w /\ requests w' = requests w /\
  backoff_waits w' = backoff_waits w.

(** What the method resolves to when its first fetch returns [data]. *)
Definition first_page_result (data : json) : Resolved :=
  match js_or data (JArr []) with
  | JArr (p :: ps) => Array (p :: ps)
  | _ => Undefined
  end.

(** Worlds used as concrete inputs. *)
Definition world_503 : World :=
  initial_world (always_status 503) (fun _ => 1 # 2) 5000.

Definition world_401 : World :=
  initial_world (always_status 401) (fun _ => 1 # 2) 5000.

Definition world_one_full_page : World :=
  initial_world (serve_pages default_client [records 0 10])
    (fun _ => 1 # 2) 5000.

Definition world_empty_collection : World :=
  initial_world (always_body (JArr [])) (fun _ => 1 # 2) 5000.

(** The claim C5 as the spec states it: an authentication error raised by
    the page fetch leaves [fetchAllPatients] as that error. *)
Definition auth_error_propagates (fuel : nat) (c : Client) (w : World) : Prop :=
  forall e w1,
    fetchWithRetries c (page_url c 1) 0 w = (Throw e, w1) ->
    includes (err_message e) "Authentication failed" = true ->
    fst (fetchAllPatients fuel c w) = Throw e.

(** ** Statements used by the further properties *)

(** What [fetchAllPatients] resolves to, read off the answer of the server
    to the request for page 1. *)
Definition resolved_from (o : Outcome) : Resolved :=
  match o with
  | Responds r =>
      if ok r then
        match body r with
        | Some data => first_page_result data
        | None => Array []
        end
      else Array []
  | Rejects _ => Array []
  end.

(** The requests of a trace, newest first. *)
Definition requests_of (w : World) : list Event := filter is_request (trace w).

(** Does the code unit [ch] occur in [s]? *)
Fixpoint occurs (ch : ascii) (s : string) : bool :=
  match s with
  | EmptyString => false
  | String b t => Ascii.eqb ch b || occurs ch t
  end.

(** Is [s] made of decimal digits only? *)
Fixpoint all_digits (s : string) : bool :=
  match s with
  | EmptyString => true
  | String ch t => DataValidator.is_digit ch && all_digits t
  end.

(** Does [s] start with a decimal digit? *)
Definition starts_with_digit (s : string) : bool :=
  match s with
  | EmptyString => false
  | String ch _ => DataValidator.is_digit ch
  end.

(** The claim C10 as the spec states it: on every pair of numbers
    [calculateBloodPressureRisk] returns one of 0, 1, 2, 3 and never
    [undefined]. *)
Definition bp_risk_never_undefined : Prop :=
  forall s d : number,
    exists v,
      calculateBloodPressureRisk (Number s) (Number d) = Some v /\
      0 <= v <= 3.

(** A number is below, or at least, the rational [k]. Neither holds of
    [NaN]. *)
Definition below (x : number) (k : Q) : Prop :=
  match x with
  | Finite q => (q < k)%Q
  | NegInfinity => True
  | PosInfinity => False
  | NaN => False
  end.

Definition at_least (x : number) (k : Q) : Prop :=
  match x with
  | Finite q => (k <= q)%Q
  | PosInfinity => True
  | NegInfinity => False
  | NaN => False
  end.

(** * Properties *)

(** ** Timers, the random source and the throttle leave the server alone *)

Lemma throttle_ok (c : Client) (w : World) :
  exists w', throttle c w = (Ok tt, w') /\ quiet w w'.
Proof.
  unfold throttle, bind, Date_now.
  destruct (Qltb (clock w - lastRequestTime w) (1000 / requestsPerSecond c));
    cbn; eexists; (split; [reflexivity | repeat split]).
Qed.

(** The three retry sites of [fetchWithRetries] run the same three
    statements; they wait once and then fail on the missing method. *)
Lemma retry_site (c : Client) (url : string) (attempt : nat) (w : World) :
  exists w',
    (delay <- getBackoffDelay c attempt ;;
     sleep BackoffWait delay ;;;
     fetchWithRetry url (attempt + 1)) w = (Throw the_TypeError, w') /\
    transport w' = transport w /\ requests w' = requests w /\
    backoff_waits w' = S (backoff_waits w).
Proof.
  unfold getBackoffDelay, bind, Math_random, ret, sleep, fetchWithRetry, throw.
  cbn. eexists. split; [reflexivity | repeat split].
Qed.

Lemma fetch_responds (url : string) (w : World) (o : Outcome) :
  transport w (requests w) url = o ->
  exists w',
    fetch url w =
      (match o with Responds r => Ok r | Rejects e => Throw e end, w') /\
    transport w' = transport w /\ requests w' = S (requests w) /\
    backoff_waits w' = backoff_waits w.
Proof.
  intros H. unfold fetch. rewrite H.
  destruct o; eexists; (split; [reflexivity | repeat split]).
Qed.

(** [throttle] followed by [fetch]: the request is the one the server sees
    next. *)
Lemma throttle_fetch (c : Client) (url : string) (w : World) (o : Outcome) :
  transport w (requests w) url = o ->
  exists w',
    (throttle c ;;; fetch url) w =
      (match o with Responds r => Ok r | Rejects e => Throw e end, w') /\
    transport w' = transport w /\ requests w' = S (requests w) /\
    backoff_waits w' = backoff_waits w.
Proof.
  intros H. unfold bind.
  destruct (throttle_ok c w) as (w1 & Hth & Htr & Hrq & Hbo). rewrite Hth.
  destruct (fetch_responds url w1 o) as (w2 & Hf & Htr2 & Hrq2 & Hbo2).
  { rewrite Htr, Hrq. exact H. }
  exists w2. split; [exact Hf | ].
  repeat split; congruence.
Qed.

Lemma bind_seq {A B C} (m : M A) (n : M B) (h : B -> M C) (w : World) :
  bind m (fun _ => bind n h) w = bind (bind m (fun _ => n)) h w.
Proof.
  unfold bind. destruct (m w) as [[a | e] w1]; reflexivity.
Qed.

Lemma TypeError_not_auth :
  includes (err_message the_TypeError) "Authentication failed" = false.
Proof. reflexivity. Qed.

Lemma auth_Error_is_auth :
  includes (err_message the_auth_Error) "Authentication failed" = true.
Proof. reflexivity. Qed.

(** Runs [fetchWithRetries] up to the classification of the outcome [H] of
    its request. *)
Ltac send_request c url w H w1 Htr Hrq Hbo :=
  unfold fetchWithRetries, try_catch;
  rewrite bind_seq; unfold bind at 1;
  let Hf := fresh "Hf" in
  destruct (throttle_fetch c url w _ H) as (w1 & Hf & Htr & Hrq & Hbo);
  rewrite Hf; clear Hf.

(** ** What [fetchWithRetries] does with each kind of first answer *)

(** A 429 answer: one wait, the failed call of the missing method, and in
    the [catch] clause one more wait and one more failed call when attempts
    remain. No second request is sent. *)
Lemma fetchWithRetries_429 (c : Client) (url : string) (attempt : nat)
  (w : World) (r : Response) :
  transport w (requests w) url = Responds r ->
  status r = 429 ->
  exists w',
    fetchWithRetries c url attempt w = (Throw the_TypeError, w') /\
    transport w' = transport w /\
    requests w' = S (requests w) /\
    backoff_waits w' =
      (backoff_waits w +
       if (Z.of_nat attempt <? maxRetries c)%Z then 2 else 1)%nat.
Proof.
  intros H Hst. send_request c url w H w1 Htr Hrq Hbo.
  rewrite Hst. change (429 =? 429) with true. cbv iota.
  destruct (retry_site c url attempt w1) as (w2 & Hr & Htr2 & Hrq2 & Hbo2).
  rewrite Hr, TypeError_not_auth.
  destruct (Z.of_nat attempt <? maxRetries c).
  - destruct (retry_site c url attempt w2) as (w3 & Hr3 & Htr3 & Hrq3 & Hbo3).
    exists w3. split; [exact Hr3 | ].
    repeat split; try congruence. lia.
  - exists w2. split; [reflexivity | ].
    repeat split; try congruence. lia.
Qed.

(** A 5xx answer while attempts remain: the same two waits and the same
    [TypeError]. *)
Lemma fetchWithRetries_5xx (c : Client) (url : string) (attempt : nat)
  (w : World) (r : Response) :
  transport w (requests w) url = Responds r ->
  500 <= status r ->
  Z.of_nat attempt < maxRetries c ->
  exists w',
    fetchWithRetries c url attempt w = (Throw the_TypeError, w') /\
    transport w' = transport w /\
    requests w' = S (requests w) /\
    backoff_waits w' = (backoff_waits w + 2)%nat.
Proof.
  intros H Hst Hat. send_request c url w H w1 Htr Hrq Hbo.
  assert (E429 : (status r =? 429) = false) by (apply Z.eqb_neq; lia).
  assert (E500 : (500 <=? status r) = true) by (apply Z.leb_le; lia).
  assert (Elt : (Z.of_nat attempt <? maxRetries c) = true) by (apply Z.ltb_lt; lia).
  rewrite E429, E500, Elt. cbv iota. cbn [andb].
  destruct (retry_site c url attempt w1) as (w2 & Hr & Htr2 & Hrq2 & Hbo2).
  rewrite Hr, TypeError_not_auth. cbv iota.
  destruct (retry_site c url attempt w2) as (w3 & Hr3 & Htr3 & Hrq3 & Hbo3).
  exists w3. split; [exact Hr3 | ].
  repeat split; try congruence. lia.
Qed.

(** A 401 or 403 answer: the error is thrown, caught, recognised by its
    message and thrown again, with no wait and no further request. *)
Lemma fetchWithRetries_auth (c : Client) (url : string) (attempt : nat)
  (w : World) (r : Response) :
  transport w (requests w) url = Responds r ->
  status r = 401 \/ status r = 403 ->
  exists w',
    fetchWithRetries c url attempt w = (Throw the_auth_Error, w') /\
    transport w' = transport w /\
    requests w' = S (requests w) /\
    backoff_waits w' = backoff_waits w.
Proof.
  intros H Hst. send_request c url w H w1 Htr Hrq Hbo.
  assert (E429 : (status r =? 429) = false) by (apply Z.eqb_neq; lia).
  assert (E500 : (500 <=? status r) = false) by (apply Z.leb_gt; lia).
  assert (Eau : ((status r =? 401) || (status r =? 403)) = true).
  { apply orb_true_iff. rewrite !Z.eqb_eq. exact Hst. }
  rewrite E429, E500, Eau. cbn [andb]. cbv iota.
  unfold throw at 1. fold the_auth_Error. rewrite auth_Error_is_auth.
  exists w1. split; [reflexivity | repeat split; congruence].
Qed.

(** A 2xx answer with a JSON body: the body is returned. *)
Lemma fetchWithRetries_success (c : Client) (url : string) (attempt : nat)
  (w : World) (r : Response) (data : json) :
  transport w (requests w) url = Responds r ->
  ok r = true ->
  body r = Some data ->
  exists w',
    fetchWithRetries c url attempt w = (Ok data, w') /\
    transport w' = transport w /\
    requests w' = S (requests w) /\
    backoff_waits w' = backoff_waits w.
Proof.
  intros H Hok Hbody. send_request c url w H w1 Htr Hrq Hbo.
  unfold ok in Hok. apply andb_true_iff in Hok. destruct Hok as [Hlo Hhi].
  apply Z.leb_le in Hlo. apply Z.leb_le in Hhi.
  assert (E429 : (status r =? 429) = false) by (apply Z.eqb_neq; lia).
  assert (E500 : (500 <=? status r) = false) by (apply Z.leb_gt; lia).
  assert (E401 : (status r =? 401) = false) by (apply Z.eqb_neq; lia).
  assert (E403 : (status r =? 403) = false) by (apply Z.eqb_neq; lia).
  assert (Eok : (ok r) = true).
  { unfold ok. apply andb_true_iff. split; apply Z.leb_le; lia. }
  rewrite E429, E500, E401, E403, Eok. cbn [andb orb negb]. cbv iota.
  unfold response_json. rewrite Hbody. unfold ret.
  exists w1. split; [reflexivity | repeat split; congruence].
Qed.

(** ** The paginator runs its loop body once *)

Lemma process_page_first (c : Client) (data : json) :
  let l := mkLocals [] 1 true in
  match js_or data (JArr []) with
  | JArr (p :: ps) =>
      exists more,
        process_page c l data = (mkLocals (p :: ps) 2 more, Normal)
  | _ => process_page c l data = (mkLocals [] 1 false, Break)
  end.
Proof.
  unfold process_page, js_or, truthy.
  destruct data as [ | b | q | s | items | fields]; cbv zeta;
    try reflexivity.
  - destruct b; reflexivity.
  - destruct (Qeq_bool q 0); reflexivity.
  - destruct (String.eqb s ""); reflexivity.
  - destruct items as [ | p ps]; [reflexivity | ].
    eexists. cbn. reflexivity.
Qed.

(** With any fuel but none, [fetchAllPatients] is decided by the fetch of
    page 1: an error gives the empty accumulator, a non-empty array gives
    that array, anything else [undefined]. The world is the one the fetch
    leaves. *)
Lemma fetchAllPatients_first_fetch (fuel : nat) (c : Client) (w : World) :
  fetchAllPatients (S fuel) c w =
    match fetchWithRetries c (page_url c 1) 0 w with
    | (Ok data, w1) => (Ok (Some (first_page_result data)), w1)
    | (Throw e, w1) => (Ok (Some (Array [])), w1)
    end.
Proof.
  unfold fetchAllPatients. cbn [while_moreData moreData].
  unfold bind, loop_body. cbn [page].
  destruct (fetchWithRetries c (page_url c 1) 0 w) as [[data | e] w1].
  - pose proof (process_page_first c data) as Hp. cbv zeta in Hp.
    unfold first_page_result. revert Hp.
    destruct (js_or data (JArr [])) as [ | b | q | s | items | fields];
      try (cbv iota; intros Hp; rewrite Hp; reflexivity).
    destruct items as [ | p ps]; cbv iota;
      [intros Hp; rewrite Hp; reflexivity | ].
    intros (more & Hp). rewrite Hp. reflexivity.
  - reflexivity.
Qed.

Lemma serve_pages_first (c : Client) (p : list json) (rest : list (list json))
  (n : nat) :
  serve_pages c (p :: rest) n (page_url c 1) =
    Responds (mkResponse 200 (Some (JArr p))).
Proof.
  unfold serve_pages. cbn [serve_from]. rewrite String.eqb_refl. reflexivity.
Qed.

(** A 2xx first page decides the whole run. *)
Lemma fetchAllPatients_first_success (fuel : nat) (c : Client) (w : World)
  (r : Response) (data : json) :
  transport w (requests w) (page_url c 1) = Responds r ->
  ok r = true ->
  body r = Some data ->
  exists w',
    fetchWithRetries c (page_url c 1) 0 w = (Ok data, w') /\
    fetchAllPatients (S fuel) c w = (Ok (Some (first_page_result data)), w') /\
    requests w' = S (requests w) /\
    backoff_waits w' = backoff_waits w.
Proof.
  intros H Hok Hbody.
  destruct (fetchWithRetries_success c _ 0 w r data H Hok Hbody)
    as (w1 & Hf & _ & Hrq & Hbo).
  exists w1. rewrite fetchAllPatients_first_fetch, Hf. auto.
Qed.

(** * The claims *)

(** C1. With pages of 10, 10 and 7 records and [pageSize] 10, the spec has
    [fetchAllPatients] return all 27 records after 3 page requests. The
    code does not: [return allPatients] (line 107) stands inside the body
    of the [while] loop, so the method returns after page 1 with its 10
    records, having issued exactly 1 request. *)
Theorem fetchAllPatients_returns_after_page_1 (fuel : nat) (c : Client)
  (p1 p2 p3 : list json) (r : nat -> Q) (now : Q) :
  pageSize c = 10 ->
  List.length p1 = 10%nat -> List.length p2 = 10%nat ->
  List.length p3 = 7%nat ->
  exists w',
    fetchAllPatients (S fuel) c
      (initial_world (serve_pages c [p1; p2; p3]) r now) =
      (Ok (Some (Array p1)), w') /\
    requests w' = 1%nat /\
    p1 <> (p1 ++ p2 ++ p3)%list /\
    List.length (p1 ++ p2 ++ p3)%list = 27%nat.
Proof.
  intros _ H1 H2 H3.
  set (w := initial_world (serve_pages c [p1; p2; p3]) r now).
  destruct (fetchAllPatients_first_success fuel c w
              (mkResponse 200 (Some (JArr p1))) (JArr p1))
    as (w' & _ & Hall & Hrq & _).
  { apply serve_pages_first. }
  { reflexivity. }
  { reflexivity. }
  exists w'. repeat split.
  - rewrite Hall. destruct p1 as [ | p ps]; [discriminate H1 | reflexivity].
  - exact Hrq.
  - intros E. apply (f_equal (@List.length json)) in E.
    rewrite !length_app in E. lia.
  - rewrite !length_app. lia.
Qed.

Lemma fetchAllPatients_returns_after_page_1_witness :
  exists w',
    fetchAllPatients 1 default_client
      (initial_world
         (serve_pages default_client
            [records 0 10; records 10 10; records 20 7])
         (fun _ => 1 # 2) 5000) =
      (Ok (Some (Array (records 0 10))), w') /\
    requests w' = 1%nat.
Proof.
  destruct (fetchAllPatients_returns_after_page_1 0 default_client
              (records 0 10) (records 10 10) (records 20 7)
              (fun _ => 1 # 2) 5000
              eq_refl eq_refl eq_refl eq_refl)
    as (w' & H & Hrq & _).
  exists w'. split; assumption.
Defined.

(** C2. Against a server that answers 429 twice and then succeeds, the spec
    has [fetchWithRetries] return the payload. The code does not: the retry
    calls [this.fetchWithRetry], which the class does not define (the
    method is [fetchWithRetries]), so after the first 429 no second request
    is sent and the call rejects with that [TypeError], whatever
    [maxRetries] is. *)
Theorem fetchWithRetries_rate_limited_raises_TypeError (c : Client)
  (payload : json) (url : string) (r : nat -> Q) (now : Q) :
  exists w',
    fetchWithRetries c url 0 (initial_world (rate_limited_twice payload) r now)
      = (Throw the_TypeError, w') /\
    requests w' = 1%nat.
Proof.
  destruct (fetchWithRetries_429 c url 0
              (initial_world (rate_limited_twice payload) r now)
              (mkResponse 429 None) eq_refl eq_refl)
    as (w' & H & _ & Hrq & _).
  exists w'. split; assumption.
Qed.

(** C3. Against a server that always answers 503, the spec has
    [fetchWithRetries] make [maxRetries + 1] attempts and then raise an
    error carrying the status. The code does not: for every
    [options.maxRetries >= 0] it sends one request, waits twice (once in
    the 5xx branch, once in the [catch] clause) and rejects with the
    [TypeError] of the undefined [this.fetchWithRetry]. *)
Theorem fetchWithRetries_503_single_attempt (n : nat) (base key url : string)
  (delay0 : option Z) (rps : option Q) (size : option Z)
  (r : nat -> Q) (now : Q) :
  let c := constructor base key
             (mkOptions (Some (Z.of_nat n)) delay0 rps size) in
  exists w',
    fetchWithRetries c url 0 (initial_world (always_status 503) r now)
      = (Throw the_TypeError, w') /\
    requests w' = 1%nat /\
    backoff_waits w' = 2%nat.
Proof.
  intros c.
  destruct (fetchWithRetries_5xx c url 0
              (initial_world (always_status 503) r now)
              (mkResponse 503 None) eq_refl)
    as (w' & H & _ & Hrq & Hbo).
  { cbn. lia. }
  { unfold c, constructor, or_default. cbn [maxRetries opt_maxRetries].
    destruct (Z.eqb_spec (Z.of_nat n) 0); cbn; lia. }
  exists w'. repeat split; assumption.
Qed.

(** C4. [fetchAllPatients] never throws: with any fuel it resolves to a
    value. When the page fetch raises an error, whatever the error, the
    method resolves to the records accumulated so far, in the world the
    failed fetch left (nothing more is requested). When page 1 answers a
    non-empty array of records, the method resolves to exactly page 1's
    records after one request, whatever the server would do with a request
    for page 2, raising included. *)
Theorem fetchAllPatients_swallows_errors (fuel : nat) (c : Client) (w : World) :
  (exists v w', fetchAllPatients (S fuel) c w = (Ok (Some v), w')) /\
  (forall e w1,
      fetchWithRetries c (page_url c 1) 0 w = (Throw e, w1) ->
      fetchAllPatients (S fuel) c w = (Ok (Some (Array [])), w1)) /\
  (forall r p ps,
      transport w (requests w) (page_url c 1) = Responds r ->
      ok r = true ->
      body r = Some (JArr (p :: ps)) ->
      exists w',
        fetchAllPatients (S fuel) c w = (Ok (Some (Array (p :: ps))), w') /\
        requests w' = S (requests w)).
Proof.
  rewrite fetchAllPatients_first_fetch. split; [ | split].
  - destruct (fetchWithRetries c (page_url c 1) 0 w) as [[data | e] w1];
      eauto.
  - intros e w1 H. rewrite H. reflexivity.
  - intros r p ps H Hok Hbody.
    destruct (fetchWithRetries_success c _ 0 w r _ H Hok Hbody)
      as (w1 & Hf & _ & Hrq & _).
    exists w1. rewrite Hf. split; [reflexivity | exact Hrq].
Qed.

Lemma fetchAllPatients_swallows_errors_witness :
  fst (fetchAllPatients 1 default_client world_503) = Ok (Some (Array [])) /\
  fst (fetchAllPatients 1 default_client world_one_full_page) =
    Ok (Some (Array (records 0 10))).
Proof.
  split.
  - rewrite (proj1 (proj2
               (fetchAllPatients_swallows_errors 0 default_client world_503))
               the_TypeError
               (snd (fetchWithRetries default_client
                       (page_url default_client 1) 0 world_503))
               eq_refl).
    reflexivity.
  - destruct (proj2 (proj2
               (fetchAllPatients_swallows_errors 0 default_client
                  world_one_full_page))
               (mkResponse 200 (Some (JArr (records 0 10))))
               (JObj [("patient_id", JNum (inject_Z 0))])
               (records 1 9) eq_refl eq_refl eq_refl) as (w' & H & _).
    rewrite H. reflexivity.
Defined.

(** C5, counterexample. Against a server that always answers 401 the page
    fetch raises the authentication error and [fetchAllPatients] resolves
    to the empty array. *)
Lemma auth_error_does_not_propagate :
  ~ auth_error_propagates 1 default_client world_401.
Proof.
  intros H.
  specialize (H the_auth_Error
                (snd (fetchWithRetries default_client
                        (page_url default_client 1) 0 world_401))
                eq_refl eq_refl).
  vm_compute in H. discriminate H.
Qed.

(** C5, amended. When the page fetch gets a 401 or 403 answer,
    [fetchWithRetries] raises the authentication error and the [catch]
    clause of [fetchAllPatients] (lines 101-104) takes it like any other
    error: the method resolves to the accumulated records, the empty array,
    after that one request and no backoff wait; nothing reaches the
    caller as an exception. *)
Theorem fetchAllPatients_swallows_auth_error (fuel : nat) (c : Client)
  (w : World) (r : Response) :
  transport w (requests w) (page_url c 1) = Responds r ->
  status r = 401 \/ status r = 403 ->
  exists w',
    fetchWithRetries c (page_url c 1) 0 w = (Throw the_auth_Error, w') /\
    fetchAllPatients (S fuel) c w = (Ok (Some (Array [])), w') /\
    requests w' = S (requests w) /\
    backoff_waits w' = backoff_waits w.
Proof.
  intros H Hst.
  destruct (fetchWithRetries_auth c _ 0 w r H Hst) as (w1 & Hf & _ & Hrq & Hbo).
  exists w1. rewrite fetchAllPatients_first_fetch, Hf. auto.
Qed.

Lemma fetchAllPatients_swallows_auth_error_witness :
  fst (fetchAllPatients 1 default_client world_401) = Ok (Some (Array [])).
Proof.
  destruct (fetchAllPatients_swallows_auth_error 0 default_client world_401
              (mkResponse 401 None) eq_refl (or_introl eq_refl))
    as (w' & _ & H & _).
  rewrite H. reflexivity.
Defined.

(** C6. Against a server that answers every request with 401 or 403,
    [fetchWithRetries] raises the error [Authentication failed. Check API
    key.] after exactly one request and no backoff wait, for every
    [attempt] and every [maxRetries]: the [catch] clause recognises the
    message and throws it again before it looks at the attempts left. *)
Theorem fetchWithRetries_auth_fails_fast (c : Client) (url : string)
  (attempt : nat) (w : World) :
  (forall n u, exists r,
      transport w n u = Responds r /\ (status r = 401 \/ status r = 403)) ->
  exists w',
    fetchWithRetries c url attempt w =
      (Throw (mkError "Error" "Authentication failed. Check API key."), w') /\
    requests w' = (requests w + 1)%nat /\
    backoff_waits w' = backoff_waits w.
Proof.
  intros Hall.
  destruct (Hall (requests w) url) as (r & H & Hst).
  destruct (fetchWithRetries_auth c url attempt w r H Hst)
    as (w1 & Hf & _ & Hrq & Hbo).
  exists w1. repeat split; [exact Hf | lia | exact Hbo].
Qed.

Lemma fetchWithRetries_auth_fails_fast_witness :
  exists w',
    fetchWithRetries default_client "https://api.example/patients" 0 world_401
      = (Throw (mkError "Error" "Authentication failed. Check API key."), w') /\
    requests w' = 1%nat /\
    backoff_waits w' = 0%nat.
Proof.
  apply (fetchWithRetries_auth_fails_fast default_client
           "https://api.example/patients" 0 world_401).
  intros n u. exists (mkResponse 401 None).
  split; [reflexivity | left; reflexivity].
Defined.

(** C7. When page 1's body is an object that holds the records and
    [hasNext: false], the spec has [fetchAllPatients] append the records and
    return them. The code does not: [patients] is the object itself,
    [Array.isArray] fails on it, and the [else] branch leaves the loop by
    [break], so the method resolves to [undefined] with nothing appended.
    [data.hasNext] (line 96) is only reached with an array body. *)
Theorem fetchAllPatients_object_body_undefined (fuel : nat) (c : Client)
  (fields : list (string * json)) (r : nat -> Q) (now : Q) :
  exists w',
    fetchAllPatients (S fuel) c
      (initial_world (always_body (JObj fields)) r now) =
      (Ok (Some Undefined), w') /\
    requests w' = 1%nat.
Proof.
  destruct (fetchAllPatients_first_success fuel c
              (initial_world (always_body (JObj fields)) r now)
              (mkResponse 200 (Some (JObj fields))) (JObj fields)
              eq_refl eq_refl eq_refl)
    as (w' & _ & Hall & Hrq & _).
  exists w'. split; [exact Hall | exact Hrq].
Qed.

(** C8. When [Math.random()] yields [x] with [0 <= x < 1], the jitter
    [x * 1000] lies in [[0, 1000)] and [getBackoffDelay(attempt)] is
    [min(initialDelay * 2^attempt + jitter, 30000)]. So the delay lies
    between [initialDelay * 2^attempt] and [initialDelay * 2^attempt + 1000],
    both capped at 30000: it never exceeds 30000, and where the upper end
    stays within the cap the delay is in the uncapped interval. *)
Theorem getBackoffDelay_bounds (c : Client) (attempt : nat) (w : World) :
  let base := (inject_Z (initialDelay c) * inject_Z (2 ^ Z.of_nat attempt))%Q in
  let jitter := (rng w (draws w) * 1000)%Q in
  let delay := Qmin (base + jitter) 30000 in
  (0 <= rng w (draws w))%Q ->
  (rng w (draws w) < 1)%Q ->
  (exists w', getBackoffDelay c attempt w = (Ok delay, w')) /\
  (0 <= jitter)%Q /\ (jitter < 1000)%Q /\
  (Qmin base 30000 <= delay)%Q /\
  (delay <= Qmin (base + 1000) 30000)%Q /\
  (delay <= 30000)%Q /\
  ((base + 1000 <= 30000)%Q -> (base <= delay)%Q /\ (delay <= base + 1000)%Q).
Proof.
  intros base jitter delay H0 H1.
  assert (Hj0 : (0 <= jitter)%Q) by (unfold jitter; lra).
  assert (Hj1 : (jitter < 1000)%Q) by (unfold jitter; lra).
  split.
  { eexists. unfold getBackoffDelay, bind, Math_random, ret. reflexivity. }
  split; [exact Hj0 | ]. split; [exact Hj1 | ].
  unfold delay. clearbody base jitter. clear delay.
  destruct (Q.min_spec (base + jitter) 30000) as [[Ha Ea] | [Ha Ea]];
    destruct (Q.min_spec base 30000) as [[Hb Eb] | [Hb Eb]];
    destruct (Q.min_spec (base + 1000) 30000) as [[Hc Ec] | [Hc Ec]];
    rewrite Ea, ?Eb, ?Ec;
    (split; [ | split; [ | split; [ | intros Hcap; split]]]); lra.
Qed.

Lemma getBackoffDelay_bounds_witness :
  exists d w',
    getBackoffDelay default_client 2 world_503 = (Ok d, w') /\
    (d == 4500)%Q /\ (4000 <= d)%Q /\ (d <= 4000 + 1000)%Q.
Proof.
  pose proof (getBackoffDelay_bounds default_client 2 world_503) as H.
  cbv zeta in H.
  assert (H0 : (0 <= rng world_503 (draws world_503))%Q) by (cbn; lra).
  assert (H1 : (rng world_503 (draws world_503) < 1)%Q) by (cbn; lra).
  destruct (H H0 H1) as ((w' & Hd) & _).
  eexists. exists w'. split; [exact Hd | ].
  split; [apply Qeq_bool_eq; reflexivity | ].
  split; apply Qle_bool_iff; reflexivity.
Defined.

(** C9. When the fetch of page 1 returns an empty array or a body that is
    not an array, the loop body ends by [break] with nothing accumulated,
    and [fetchAllPatients] resolves to [undefined], which is not the empty
    accumulator. *)
Theorem fetchAllPatients_empty_first_page_undefined (fuel : nat) (c : Client)
  (w w1 : World) (data : json) :
  fetchWithRetries c (page_url c 1) 0 w = (Ok data, w1) ->
  data = JArr [] \/ (forall items, data <> JArr items) ->
  (exists l',
      loop_body c (mkLocals [] 1 true) w = (Ok (l', Break), w1) /\
      allPatients l' = []) /\
  fetchAllPatients (S fuel) c w = (Ok (Some Undefined), w1) /\
  Undefined <> Array [].
Proof.
  intros Hf Hdata.
  assert (Hp : process_page c (mkLocals [] 1 true) data =
               (mkLocals [] 1 false, Break)).
  { pose proof (process_page_first c data) as Hp. cbv zeta in Hp.
    destruct Hdata as [-> | Hna]; [exact Hp | ].
    revert Hp. unfold js_or.
    destruct (truthy data); [ | intros Hp; exact Hp].
    destruct data as [ | b | q | s | items | fields];
      try (intros Hp; exact Hp).
    exfalso. apply (Hna items). reflexivity. }
  split; [ | split].
  - exists (mkLocals [] 1 false).
    unfold loop_body. cbn [page]. rewrite Hf, Hp. split; reflexivity.
  - rewrite fetchAllPatients_first_fetch, Hf. unfold first_page_result.
    pose proof (process_page_first c data) as Hq. cbv zeta in Hq.
    destruct (js_or data (JArr [])) as [ | b | q | s | items | fields];
      try reflexivity.
    destruct items as [ | p ps]; [reflexivity | ].
    destruct Hq as (more & Hq). rewrite Hp in Hq. discriminate Hq.
  - discriminate.
Qed.

Lemma fetchAllPatients_empty_first_page_undefined_witness :
  fst (fetchAllPatients 1 default_client world_empty_collection) =
    Ok (Some Undefined).
Proof.
  destruct (fetchAllPatients_empty_first_page_undefined 0 default_client
              world_empty_collection
              (snd (fetchWithRetries default_client
                      (page_url default_client 1) 0 world_empty_collection))
              (JArr []) eq_refl (or_introl eq_refl))
    as (_ & H & _).
  rewrite H. reflexivity.
Defined.

(** C10, counterexample. On the numbers [NaN] and [NaN] every test of
    lines 175-179 is false: the chain falls through and the call evaluates
    to [undefined]. *)
Lemma calculateBloodPressureRisk_NaN_falls_through :
  ~ bp_risk_never_undefined.
Proof.
  intros H. destruct (H NaN NaN) as (v & Hv & _). discriminate Hv.
Qed.

(** C10, amended. [calculateBloodPressureRisk] returns 0 when either
    argument is [null]. On every pair of arguments that are [null] or
    numbers it executes exactly one of its five [return] statements, with a
    value among 0, 1, 2, 3, unless both arguments are [NaN]; it falls
    through to [undefined] exactly when both are [NaN]. A diastolic value
    below 90 gives at most 2 whatever the systolic value, 140 and above
    included, since line 178 tests a disjunction. *)
Theorem calculateBloodPressureRisk_total_unless_NaN
  (systolic diastolic : value) :
  (value_is_null systolic = true \/ value_is_null diastolic = true ->
   calculateBloodPressureRisk systolic diastolic = Some 0) /\
  (calculateBloodPressureRisk systolic diastolic = None <->
   systolic = Number NaN /\ diastolic = Number NaN) /\
  (~ (systolic = Number NaN /\ diastolic = Number NaN) ->
   exists line v,
     bp_return systolic diastolic = Some (line, v) /\
     calculateBloodPressureRisk systolic diastolic = Some v /\
     (175 <= line <= 179)%nat /\
     0 <= v <= 3) /\
  (value_lt diastolic 90 = true ->
   exists v,
     calculateBloodPressureRisk systolic diastolic = Some v /\ v <= 2).
Proof.
  unfold calculateBloodPressureRisk, bp_return, value_lt, value_ge.
  destruct systolic as [ | [qs | | | ]], diastolic as [ | [qd | | | ]];
    cbn [value_is_null ToNumber number_lt number_ge orb andb negb];
    repeat match goal with
      | |- context [ResilientAPIClient.Qltb ?a ?b] =>
          destruct (ResilientAPIClient.Qltb a b)
      end;
    cbn [orb andb negb option_map snd];
    (split; [ | split; [ | split]]).
  all: try (intros [H | H]; solve [discriminate H | reflexivity]).
  all: try (split; [intros H; discriminate H
                   | intros [H1 H2]; solve [discriminate H1 | discriminate H2]]).
  all: try (split; [intros _; split; reflexivity | intros _; reflexivity]).
  all: try (intros H; discriminate H).
  all: try (intros _; do 2 eexists;
            (split; [reflexivity | split; [reflexivity | split; lia]])).
  all: try (intros _; eexists; split; [reflexivity | lia]).
  all: try (intros H; exfalso; apply H; split; reflexivity).
Qed.

Lemma calculateBloodPressureRisk_total_unless_NaN_witness :
  (exists v,
      calculateBloodPressureRisk (Number (Finite 150)) (Number (Finite 85)) =
        Some v /\ v <= 2) /\
  calculateBloodPressureRisk Null (Number NaN) = Some 0 /\
  (exists line v,
      bp_return (Number (Finite 150)) (Number NaN) = Some (line, v) /\
      0 <= v <= 3).
Proof.
  split; [ | split].
  - exact (proj2 (proj2 (proj2 (calculateBloodPressureRisk_total_unless_NaN
                                  (Number (Finite 150)) (Number (Finite 85)))))
             eq_refl).
  - exact (proj1 (calculateBloodPressureRisk_total_unless_NaN
                    Null (Number NaN))
             (or_introl eq_refl)).
  - destruct (proj1 (proj2 (proj2 (calculateBloodPressureRisk_total_unless_NaN
                                     (Number (Finite 150)) (Number NaN))))
                ltac:(intros [H _]; discriminate H))
      as (line & v & Hb & _ & _ & Hv).
    exists line, v. split; assumption.
Defined.

(** * Further properties of the client *)

(** ** One request per call *)

(** Whatever the server does, a call of [fetchWithRetries] sends exactly
    one request, for [url], waits for at most two backoffs, and can only
    return the JSON body of a 2xx answer. *)
Lemma fetchWithRetries_cases (c : Client) (url : string) (attempt : nat)
  (w : World) :
  exists res w',
    fetchWithRetries c url attempt w = (res, w') /\
    transport w' = transport w /\
    requests_of w' = EvRequest url :: requests_of w /\
    (backoff_waits w <= backoff_waits w' <= backoff_waits w + 2)%nat /\
    match res with
    | Ok data =>
        exists r,
          transport w (requests w) url = Responds r /\
          ok r = true /\ body r = Some data /\
          backoff_waits w' = backoff_waits w
    | Throw _ => True
    end.
Proof.
  destruct (throttle_ok c w) as (w0 & Hth & Htr0 & Hrq0 & Hbo0).
  assert (Hro0 : requests_of w0 = requests_of w).
  { revert Hth. unfold throttle, bind, Date_now, sleep, set_lastRequestTime, ret.
    destruct (Qltb (clock w - lastRequestTime w) (1000 / requestsPerSecond c));
      intros Hth; injection Hth as <-; reflexivity. }
  unfold fetchWithRetries, try_catch. unfold bind at 1 2. rewrite Hth.
  unfold fetch. rewrite Htr0, Hrq0.
  destruct (transport w (requests w) url) as [r | e].
  - destruct (ok r) eqn:Eok; destruct (body r) as [data | ] eqn:Ebody;
      unfold response_json; rewrite ?Ebody;
      unfold getBackoffDelay, bind, Math_random, sleep, fetchWithRetry, ret,
        throw, requests_of, backoff_waits in *;
      cbn [trace transport filter is_request is_backoff negb];
      repeat match goal with
        | |- context [if ?b then _ else _] => destruct b
        end;
      cbn [trace transport filter is_request is_backoff List.length];
      do 2 eexists; (split; [reflexivity | ]);
      cbn [trace transport filter is_request is_backoff List.length];
      rewrite ?Hro0, ?Hbo0; repeat split; auto; try lia.
    all: exists r; repeat split; auto.
  - unfold getBackoffDelay, bind, Math_random, sleep, fetchWithRetry, ret,
      throw, requests_of, backoff_waits in *;
      repeat match goal with
        | |- context [if ?b then _ else _] => destruct b
        end;
      do 2 eexists; (split; [reflexivity | ]);
      cbn [trace transport filter is_request is_backoff List.length];
      rewrite ?Hro0, ?Hbo0; repeat split; auto; try lia.
Qed.

Lemma Qltb_lt (a b : Q) : Qltb a b = true <-> (a < b)%Q.
Proof.
  unfold Qltb. rewrite negb_true_iff.
  split.
  - intros H. apply Qnot_le_lt. intros Hle.
    apply Qle_bool_iff in Hle. congruence.
  - intros H. destruct (Qle_bool b a) eqn:E; [ | reflexivity].
    apply Qle_bool_iff in E. exfalso. apply (Qlt_not_le _ _ H E).
Qed.

Lemma Qltb_ge (a b : Q) : Qltb a b = false <-> (b <= a)%Q.
Proof.
  unfold Qltb. rewrite negb_false_iff. apply Qle_bool_iff.
Qed.

(** ** Messages that are not the authentication message *)

Lemma index_absent_char (a : ascii) (t s : string) :
  occurs a s = false -> String.index 0 (String a t) s = None.
Proof.
  induction s as [ | b s IH]; cbn [occurs String.index]; intros H.
  - reflexivity.
  - apply orb_false_iff in H. destruct H as [Hab Hs].
    cbn [prefix]. destruct (ascii_dec a b) as [-> | _].
    + rewrite Ascii.eqb_refl in Hab. discriminate Hab.
    + rewrite (IH Hs). reflexivity.
Qed.

Lemma occurs_app (a : ascii) (s t : string) :
  occurs a (s ++ t) = occurs a s || occurs a t.
Proof.
  induction s as [ | b s IH]; cbn [append occurs]; [reflexivity | ].
  rewrite IH. apply orb_assoc.
Qed.

Lemma occurs_A_uint (d : Decimal.uint) :
  occurs "A" (NilEmpty.string_of_uint d) = false.
Proof.
  induction d; cbn [NilEmpty.string_of_uint occurs]; try exact IHd; reflexivity.
Qed.

Lemma occurs_A_show_Z (z : Z) : occurs "A" (show_Z z) = false.
Proof.
  unfold show_Z, NilZero.string_of_int, NilZero.string_of_uint.
  destruct (Z.to_int z) as [d | d]; destruct d;
    try reflexivity;
    cbn [occurs NilEmpty.string_of_uint Ascii.eqb Bool.eqb orb];
    apply occurs_A_uint.
Qed.

Lemma status_message_not_auth (z : Z) :
  includes ("Request failed with status " ++ show_Z z)
    "Authentication failed" = false.
Proof.
  unfold includes. rewrite index_absent_char; [reflexivity | ].
  rewrite occurs_app, occurs_A_show_Z. reflexivity.
Qed.

(** ** The constructor *)



(** ** The throttle *)

(** X2. [throttle] always returns, sends nothing and changes no backoff
    count. When it returns, the clock is at least [1000 / requestsPerSecond]
    past the previous [lastRequestTime], and [lastRequestTime] is the time
    of return; so two calls in a row return at least that interval apart. *)
Theorem throttle_spacing (c : Client) (w : World) :
  exists w1 w2,
    throttle c w = (Ok tt, w1) /\
    throttle c w1 = (Ok tt, w2) /\
    (lastRequestTime w + 1000 / requestsPerSecond c <= clock w1)%Q /\
    (clock w <= clock w1)%Q /\
    lastRequestTime w1 = clock w1 /\
    requests_of w1 = requests_of w /\
    backoff_waits w1 = backoff_waits w /\
    (clock w1 + 1000 / requestsPerSecond c <= clock w2)%Q.
Proof.
  assert (Hone : forall w0, exists w1,
             throttle c w0 = (Ok tt, w1) /\
             (lastRequestTime w0 + 1000 / requestsPerSecond c <= clock w1)%Q /\
             (clock w0 <= clock w1)%Q /\
             lastRequestTime w1 = clock w1 /\
             requests_of w1 = requests_of w0 /\
             backoff_waits w1 = backoff_waits w0).
  { intros w0.
    unfold throttle, bind, Date_now, sleep, set_lastRequestTime, ret.
    set (interval := (1000 / requestsPerSecond c)%Q).
    destruct (Qltb (clock w0 - lastRequestTime w0) interval) eqn:E.
    - apply Qltb_lt in E.
      assert (Hpos : Qltb 0 (interval - (clock w0 - lastRequestTime w0)) = true)
        by (apply Qltb_lt; lra).
      rewrite Hpos. eexists. split; [reflexivity | ].
      cbn [clock lastRequestTime]. repeat split; try lra.
    - apply Qltb_ge in E.
      eexists. split; [reflexivity | ].
      cbn [clock lastRequestTime]. repeat split; try lra. }
  destruct (Hone w) as (w1 & H1 & Hgap & Hmono & Hlast & Hreq & Hbo).
  destruct (Hone w1) as (w2 & H2 & Hgap2 & _).
  exists w1, w2. rewrite Hlast in Hgap2. repeat split; assumption.
Qed.

(** ** The backoff delay *)

(** X3. Once [initialDelay * 2^attempt] has reached the cap of 30000, the
    jitter is lost: the delay is exactly 30000 whatever [Math.random()]
    yields. With the default [initialDelay] of 1000 this holds from
    attempt 5 on. *)
Theorem backoff_delay_saturates (c : Client) (attempt : nat) (random : Q) :
  (0 <= random)%Q ->
  30000 <= initialDelay c * 2 ^ Z.of_nat attempt ->
  (backoff_delay c attempt random == 30000)%Q.
Proof.
  intros Hr Hcap. unfold backoff_delay.
  assert (Hq : (30000 <= inject_Z (initialDelay c) *
                         inject_Z (2 ^ Z.of_nat attempt))%Q).
  { rewrite <- inject_Z_mult. change 30000%Q with (inject_Z 30000).
    rewrite <- Zle_Qle. exact Hcap. }
  apply Q.min_r. lra.
Qed.

Lemma backoff_delay_saturates_witness :
  (backoff_delay default_client 5 (9 # 10) == 30000)%Q.
Proof.
  apply (backoff_delay_saturates default_client 5 (9 # 10)).
  - apply Qle_bool_iff. reflexivity.
  - apply Z.leb_le. reflexivity.
Defined.

(** X4. With a positive [initialDelay] and the same value of
    [Math.random()], a later attempt never waits less than an earlier
    one. *)
Theorem backoff_delay_monotone (c : Client) (a a' : nat) (random : Q) :
  0 < initialDelay c ->
  (a <= a')%nat ->
  (backoff_delay c a random <= backoff_delay c a' random)%Q.
Proof.
  intros Hd Ha. unfold backoff_delay.
  apply Q.min_le_compat_r.
  assert (Hz : initialDelay c * 2 ^ Z.of_nat a <=
               initialDelay c * 2 ^ Z.of_nat a').
  { apply Z.mul_le_mono_nonneg_l; [lia | ].
    apply Z.pow_le_mono_r; lia. }
  rewrite Zle_Qle, !inject_Z_mult in Hz. lra.
Qed.

Lemma backoff_delay_monotone_witness :
  (backoff_delay default_client 1 (1 # 2) <=
   backoff_delay default_client 3 (1 # 2))%Q.
Proof.
  apply (backoff_delay_monotone default_client 1 3 (1 # 2)).
  - reflexivity.
  - apply Nat.leb_le. reflexivity.
Defined.

(** ** What [fetchWithRetries] sends and returns *)

(** X5. Whatever the server does and whatever [attempt] and [maxRetries]
    are, one call of [fetchWithRetries] sends exactly one request, the one
    for [url], and waits for at most two backoffs. *)
Theorem fetchWithRetries_sends_one_request (c : Client) (url : string)
  (attempt : nat) (w : World) :
  let w' := snd (fetchWithRetries c url attempt w) in
  requests_of w' = EvRequest url :: requests_of w /\
  requests w' = S (requests w) /\
  (backoff_waits w <= backoff_waits w' <= backoff_waits w + 2)%nat.
Proof.
  destruct (fetchWithRetries_cases c url attempt w)
    as (res & w1 & H & _ & Hro & Hbo & _).
  cbv zeta. rewrite H. cbn [snd].
  split; [exact Hro | split; [ | exact Hbo]].
  unfold requests. unfold requests_of in Hro. rewrite Hro. reflexivity.
Qed.

(** X6. [fetchWithRetries] returns [data] exactly when the server's answer
    to its one request has a 2xx status and the JSON body [data]; in every
    other case it throws. *)
Theorem fetchWithRetries_returns_iff (c : Client) (url : string)
  (attempt : nat) (w : World) (data : json) :
  fst (fetchWithRetries c url attempt w) = Ok data <->
  exists r,
    transport w (requests w) url = Responds r /\
    ok r = true /\ body r = Some data.
Proof.
  split.
  - intros H.
    destruct (fetchWithRetries_cases c url attempt w)
      as (res & w1 & Hf & _ & _ & _ & Hres).
    rewrite Hf in H. cbn [fst] in H. subst res.
    destruct Hres as (r & Hr & Hok & Hbody & _). exists r. auto.
  - intros (r & Hr & Hok & Hbody).
    destruct (fetchWithRetries_success c url attempt w r data Hr Hok Hbody)
      as (w1 & Hf & _).
    rewrite Hf. reflexivity.
Qed.

Lemma fetchWithRetries_returns_iff_witness :
  fst (fetchWithRetries default_client (page_url default_client 1) 0
         world_one_full_page) = Ok (JArr (records 0 10)).
Proof.
  apply (proj2 (fetchWithRetries_returns_iff default_client
                  (page_url default_client 1) 0 world_one_full_page
                  (JArr (records 0 10)))).
  exists (mkResponse 200 (Some (JArr (records 0 10)))).
  repeat split; reflexivity.
Defined.

(** X7. When no attempt is left ([attempt >= maxRetries]), an answer that
    is not 2xx, 429, 401 or 403 (a 5xx included) makes [fetchWithRetries]
    throw [Request failed with status N] with the status of that answer,
    after one request and no backoff wait. *)
Theorem fetchWithRetries_status_error (c : Client) (url : string)
  (attempt : nat) (w : World) (r : Response) :
  transport w (requests w) url = Responds r ->
  ok r = false ->
  status r <> 429 -> status r <> 401 -> status r <> 403 ->
  maxRetries c <= Z.of_nat attempt ->
  exists w',
    fetchWithRetries c url attempt w =
      (Throw (mkError "Error"
                ("Request failed with status " ++ show_Z (status r))), w') /\
    requests w' = S (requests w) /\
    backoff_waits w' = backoff_waits w.
Proof.
  intros H Hok H429 H401 H403 Hat. send_request c url w H w1 Htr Hrq Hbo.
  assert (E429 : (status r =? 429) = false) by (apply Z.eqb_neq; lia).
  assert (E401 : (status r =? 401) = false) by (apply Z.eqb_neq; lia).
  assert (E403 : (status r =? 403) = false) by (apply Z.eqb_neq; lia).
  assert (Elt : (Z.of_nat attempt <? maxRetries c) = false)
    by (apply Z.ltb_ge; lia).
  rewrite E429, E401, E403, Elt, Hok, andb_false_r.
  cbn [orb negb]. cbv iota. unfold throw at 1. cbn [err_message].
  rewrite status_message_not_auth.
  exists w1. split; [reflexivity | split; congruence].
Qed.

Lemma fetchWithRetries_status_error_witness :
  exists w',
    fetchWithRetries default_client "u" 5 world_503 =
      (Throw (mkError "Error" "Request failed with status 503"), w') /\
    requests w' = 1%nat /\ backoff_waits w' = 0%nat.
Proof.
  apply (fetchWithRetries_status_error default_client "u" 5 world_503
           (mkResponse 503 None) eq_refl eq_refl);
    discriminate.
Defined.

(** X8. A client error such as 404 (not 2xx, below 500, not 429, 401 or
    403) is handled like a transport failure: the error thrown for it is
    caught, and where an attempt is left the code waits for one backoff
    before the retry call fails. No second request is sent. *)
Theorem fetchWithRetries_client_error_waits (c : Client) (url : string)
  (attempt : nat) (w : World) (r : Response) :
  transport w (requests w) url = Responds r ->
  ok r = false ->
  status r < 500 ->
  status r <> 429 -> status r <> 401 -> status r <> 403 ->
  Z.of_nat attempt < maxRetries c ->
  exists w',
    fetchWithRetries c url attempt w = (Throw the_TypeError, w') /\
    requests w' = S (requests w) /\
    backoff_waits w' = S (backoff_waits w).
Proof.
  intros H Hok H500 H429 H401 H403 Hat. send_request c url w H w1 Htr Hrq Hbo.
  assert (E429 : (status r =? 429) = false) by (apply Z.eqb_neq; lia).
  assert (E401 : (status r =? 401) = false) by (apply Z.eqb_neq; lia).
  assert (E403 : (status r =? 403) = false) by (apply Z.eqb_neq; lia).
  assert (E500 : (500 <=? status r) = false) by (apply Z.leb_gt; lia).
  assert (Elt : (Z.of_nat attempt <? maxRetries c) = true)
    by (apply Z.ltb_lt; lia).
  rewrite E429, E401, E403, E500, Elt, Hok.
  cbn [andb orb negb]. cbv iota. unfold throw at 1. cbn [err_message].
  rewrite status_message_not_auth.
  destruct (retry_site c url attempt w1) as (w2 & Hr & _ & Hrq2 & Hbo2).
  exists w2. split; [exact Hr | split; congruence].
Qed.

Lemma fetchWithRetries_client_error_waits_witness :
  exists w',
    fetchWithRetries default_client "u" 0
      (initial_world (always_status 404) (fun _ => 1 # 2) 5000) =
      (Throw the_TypeError, w') /\
    requests w' = 1%nat /\ backoff_waits w' = 1%nat.
Proof.
  apply (fetchWithRetries_client_error_waits default_client "u" 0
           (initial_world (always_status 404) (fun _ => 1 # 2) 5000)
           (mkResponse 404 None) eq_refl eq_refl);
    try discriminate; reflexivity.
Defined.

(** X9. When the request itself fails (the transport rejects with error
    [e]), the [catch] clause looks at the message only: an error whose
    message contains [Authentication failed] is thrown again at once even
    where attempts are left, and so is any error when no attempt is left;
    otherwise the code waits for one backoff before the retry call fails. *)
Theorem fetchWithRetries_transport_error (c : Client) (url : string)
  (attempt : nat) (w : World) (e : JsError) :
  transport w (requests w) url = Rejects e ->
  (includes (err_message e) "Authentication failed" = true \/
   maxRetries c <= Z.of_nat attempt ->
   exists w',
     fetchWithRetries c url attempt w = (Throw e, w') /\
     backoff_waits w' = backoff_waits w) /\
  (includes (err_message e) "Authentication failed" = false ->
   Z.of_nat attempt < maxRetries c ->
   exists w',
     fetchWithRetries c url attempt w = (Throw the_TypeError, w') /\
     backoff_waits w' = S (backoff_waits w)).
Proof.
  intros H. split.
  - intros Hcase. send_request c url w H w1 Htr Hrq Hbo.
    destruct (includes (err_message e) "Authentication failed") eqn:Einc.
    + exists w1. split; [reflexivity | exact Hbo].
    + destruct Hcase as [Habs | Hat]; [discriminate Habs | ].
      assert (Elt : (Z.of_nat attempt <? maxRetries c) = false)
        by (apply Z.ltb_ge; lia).
      rewrite Elt. exists w1. split; [reflexivity | exact Hbo].
  - intros Einc Hat. send_request c url w H w1 Htr Hrq Hbo.
    assert (Elt : (Z.of_nat attempt <? maxRetries c) = true)
      by (apply Z.ltb_lt; lia).
    rewrite Einc, Elt.
    destruct (retry_site c url attempt w1) as (w2 & Hr & _ & _ & Hbo2).
    exists w2. split; [exact Hr | congruence].
Qed.

Lemma fetchWithRetries_transport_error_witness :
  let e := mkError "TypeError" "fetch failed: Authentication failed upstream" in
  fst (fetchWithRetries default_client "u" 0
         (initial_world (fun _ _ => Rejects e) (fun _ => 1 # 2) 5000)) =
    Throw e /\
  fst (fetchWithRetries default_client "u" 0
         (initial_world
            (fun _ _ => Rejects (mkError "TypeError" "fetch failed"))
            (fun _ => 1 # 2) 5000)) =
    Throw the_TypeError.
Proof.
  intros e. split.
  - destruct (proj1 (fetchWithRetries_transport_error default_client "u" 0
                       (initial_world (fun _ _ => Rejects e)
                          (fun _ => 1 # 2) 5000) e eq_refl)
                (or_introl eq_refl)) as (w' & H & _).
    rewrite H. reflexivity.
  - destruct (proj2 (fetchWithRetries_transport_error default_client "u" 0
                       (initial_world
                          (fun _ _ => Rejects (mkError "TypeError" "fetch failed"))
                          (fun _ => 1 # 2) 5000)
                       (mkError "TypeError" "fetch failed") eq_refl)
                eq_refl eq_refl) as (w' & H & _).
    rewrite H. reflexivity.
Defined.

(** * Further properties of the paginator *)

(** X10. [fetchAllPatients] sends exactly one request whatever the server
    answers, the one for [{baseURL}?page=1&limit={pageSize}], and its
    result does not depend on the fuel given to the loop. *)
Theorem fetchAllPatients_single_request (fuel fuel' : nat) (c : Client)
  (w : World) :
  let w' := snd (fetchAllPatients (S fuel) c w) in
  requests_of w' = EvRequest (page_url c 1) :: requests_of w /\
  page_url c 1 = baseURL c ++ "?page=1&limit=" ++ show_Z (pageSize c) /\
  fetchAllPatients (S fuel') c w = fetchAllPatients (S fuel) c w.
Proof.
  cbv zeta. rewrite !fetchAllPatients_first_fetch.
  destruct (fetchWithRetries_cases c (page_url c 1) 0 w)
    as (res & w1 & H & _ & Hro & _).
  rewrite H. split; [ | split; reflexivity].
  destruct res; exact Hro.
Qed.

(** X11. The result of [fetchAllPatients] is a function of the server's
    answer to the request for page 1: the records of a 2xx answer whose
    body is a non-empty array, [undefined] for a 2xx answer with any other
    JSON body, and the empty array in every other case. So the empty array
    is returned exactly when the page fetch threw, never for an empty
    collection. *)
Theorem fetchAllPatients_resolved_from (fuel : nat) (c : Client) (w : World) :
  (exists w',
      fetchAllPatients (S fuel) c w =
        (Ok (Some (resolved_from (transport w (requests w) (page_url c 1)))),
         w')) /\
  (fst (fetchAllPatients (S fuel) c w) = Ok (Some (Array [])) <->
   exists e, fst (fetchWithRetries c (page_url c 1) 0 w) = Throw e).
Proof.
  rewrite fetchAllPatients_first_fetch.
  destruct (fetchWithRetries_cases c (page_url c 1) 0 w)
    as (res & w1 & H & _ & _ & _ & Hres).
  rewrite H. cbn [fst]. split.
  - exists w1. destruct res as [data | e].
    + destruct Hres as (r & Hr & Hok & Hbody & _).
      rewrite Hr. cbn [resolved_from]. rewrite Hok, Hbody. reflexivity.
    + do 3 f_equal.
      destruct (transport w (requests w) (page_url c 1)) as [r | e'] eqn:Ho;
        [ | reflexivity].
      cbn [resolved_from].
      destruct (ok r) eqn:Hok; [ | reflexivity].
      destruct (body r) as [data | ] eqn:Hbody; [ | reflexivity].
      destruct (fetchWithRetries_success c _ 0 w r data Ho Hok Hbody)
        as (w2 & Hf & _).
      rewrite Hf in H. discriminate H.
  - destruct res as [data | e]; cbn [fst].
    + split.
      * unfold first_page_result.
        destruct (js_or data (JArr [])) as [ | | | | [ | p ps] | ];
          discriminate.
      * intros (e & He). discriminate He.
    + split; [intros _; exists e; reflexivity | reflexivity].
Qed.

Lemma fetchAllPatients_resolved_from_witness :
  fst (fetchAllPatients 1 default_client world_503) = Ok (Some (Array [])).
Proof.
  apply (proj2 (proj2 (fetchAllPatients_resolved_from 0 default_client
                         world_503))).
  exists the_TypeError. reflexivity.
Defined.

(** X12. The statements of the [try] block after the fetch never throw.
    On a non-empty array they append its records in order to the
    accumulator, advance [page] by one and set [moreData] to whether the
    page was full; the [hasNext] test of line 96 changes nothing. On any
    other body they leave by [break] with the accumulator untouched. *)
Theorem process_page_spec (c : Client) (l : Locals) (data : json) :
  (exists p ps,
      data = JArr (p :: ps) /\
      process_page c l data =
        (mkLocals (allPatients l ++ p :: ps) (page l + 1)
           (Z.of_nat (List.length (p :: ps)) =? pageSize c),
         Normal)) \/
  ((forall p ps, data <> JArr (p :: ps)) /\
   process_page c l data = (mkLocals (allPatients l) (page l) false, Break)).
Proof.
  unfold process_page, js_or, truthy.
  destruct data as [ | b | q | s | items | fields];
    try (right; split; [discriminate | reflexivity]).
  - right. split; [discriminate | ]. destruct b; reflexivity.
  - right. split; [discriminate | ]. destruct (Qeq_bool q 0); reflexivity.
  - right. split; [discriminate | ]. destruct (String.eqb s ""); reflexivity.
  - destruct items as [ | p ps].
    + right. split; [discriminate | reflexivity].
    + left. exists p, ps. split; reflexivity.
Qed.

(** * Properties of DataValidator *)

(** ** Digits *)

Lemma digit_cases (ch : ascii) :
  DataValidator.is_digit ch = true ->
  In ch ["0"; "1"; "2"; "3"; "4"; "5"; "6"; "7"; "8"; "9"]%char.
Proof.
  destruct ch as [[] [] [] [] [] [] [] []]; cbn; intros H;
    try discriminate H; tauto.
Qed.

Lemma span_digits_split (s a b : string) :
  DataValidator.span_digits s = (a, b) ->
  s = a ++ b /\ all_digits a = true /\ starts_with_digit b = false.
Proof.
  revert a b. induction s as [ | ch t IH]; cbn [DataValidator.span_digits];
    intros a b H.
  - injection H as <- <-. repeat split.
  - destruct (DataValidator.is_digit ch) eqn:Ed.
    + destruct (DataValidator.span_digits t) as [ds rest].
      injection H as <- <-.
      destruct (IH ds rest eq_refl) as (-> & Hds & Hrest).
      cbn [append all_digits]. rewrite Ed, Hds. repeat split. exact Hrest.
    + injection H as <- <-. cbn [append all_digits starts_with_digit].
      repeat split. exact Ed.
Qed.

Lemma span_digits_app (a b : string) :
  all_digits a = true -> starts_with_digit b = false ->
  DataValidator.span_digits (a ++ b) = (a, b).
Proof.
  intros Ha Hb. induction a as [ | ch t IH]; cbn [append].
  - destruct b as [ | ch t]; [reflexivity | ].
    cbn [DataValidator.span_digits]. cbn [starts_with_digit] in Hb.
    rewrite Hb. reflexivity.
  - cbn [all_digits] in Ha. apply andb_true_iff in Ha. destruct Ha as [Hch Ht].
    cbn [DataValidator.span_digits]. rewrite Hch, (IH Ht). reflexivity.
Qed.

Lemma append_empty (s : string) : s ++ "" = s.
Proof.
  induction s as [ | ch t IH]; cbn [append]; [reflexivity | ].
  rewrite IH. reflexivity.
Qed.

(** [parseInt] on a run of digits followed by anything that is not a
    digit. *)
Lemma parseInt_digits (ds rest : string) :
  all_digits ds = true -> ds <> "" -> starts_with_digit rest = false ->
  DataValidator.parseInt (ds ++ rest) =
    Some (DataValidator.digits_value 0 ds).
Proof.
  intros Hds Hne Hrest.
  pose proof (span_digits_app ds rest Hds Hrest) as Hspan.
  destruct ds as [ | ch t]; [contradiction | ].
  cbn [all_digits] in Hds. apply andb_true_iff in Hds. destruct Hds as [Hch _].
  unfold DataValidator.parseInt.
  cbn [append] in *.
  assert (Htrim : DataValidator.trim_start (String ch (t ++ rest)) =
                  String ch (t ++ rest)).
  { pose proof (digit_cases ch Hch) as Hin. cbn [In] in Hin.
    repeat (destruct Hin as [<- | Hin]; [reflexivity | ]). contradiction. }
  rewrite Htrim.
  assert (Hsign :
            match String ch (t ++ rest) with
            | String "-" u => (true, u)
            | String "+" u => (false, u)
            | _ => (false, String ch (t ++ rest))
            end = (false, String ch (t ++ rest))).
  { pose proof (digit_cases ch Hch) as Hin. cbn [In] in Hin.
    repeat (destruct Hin as [<- | Hin]; [reflexivity | ]). contradiction. }
  rewrite Hsign, Hspan. reflexivity.
Qed.

Lemma all_digits_uint (d : Decimal.uint) :
  all_digits (NilEmpty.string_of_uint d) = true.
Proof.
  induction d; cbn [NilEmpty.string_of_uint all_digits]; try exact IHd;
    reflexivity.
Qed.

Lemma digits_value_uint_acc (d : Decimal.uint) (p : positive) :
  DataValidator.digits_value (Zpos p) (NilEmpty.string_of_uint d) =
    Zpos (Pos.of_uint_acc d p).
Proof.
  revert p.
  induction d; intros p;
    cbn [NilEmpty.string_of_uint DataValidator.digits_value Pos.of_uint_acc];
    try reflexivity;
    rewrite <- IHd; f_equal;
    match goal with
    | |- context [DataValidator.digit ?ch] =>
        let v := eval vm_compute in (DataValidator.digit ch) in
        change (DataValidator.digit ch) with v
    end; lia.
Qed.

Lemma digits_value_uint (d : Decimal.uint) :
  DataValidator.digits_value 0 (NilEmpty.string_of_uint d) =
    Z.of_N (Pos.of_uint d).
Proof.
  induction d;
    cbn [NilEmpty.string_of_uint DataValidator.digits_value Pos.of_uint];
    try reflexivity;
    try exact IHd;
    match goal with
    | |- context [DataValidator.digit ?ch] =>
        let v := eval vm_compute in (DataValidator.digit ch) in
        change (DataValidator.digit ch) with v
    end;
    cbn [Z.mul Z.add Z.of_N];
    apply digits_value_uint_acc.
Qed.

Lemma show_Z_pos (p : positive) :
  show_Z (Zpos p) = NilEmpty.string_of_uint (Pos.to_uint p).
Proof.
  unfold show_Z. cbn [Z.to_int].
  unfold NilZero.string_of_int, NilZero.string_of_uint.
  pose proof (DecimalPos.Unsigned.to_uint_nonnil p) as Hnn.
  destruct (Pos.to_uint p); [contradiction | reflexivity ..].
Qed.

Lemma show_Z_neg (p : positive) :
  show_Z (Zneg p) = String "-" (show_Z (Zpos p)).
Proof.
  rewrite show_Z_pos. unfold show_Z. cbn [Z.to_int].
  unfold NilZero.string_of_int, NilZero.string_of_uint.
  pose proof (DecimalPos.Unsigned.to_uint_nonnil p) as Hnn.
  destruct (Pos.to_uint p); [contradiction | reflexivity ..].
Qed.

(** The decimal rendering of a natural number: digits only, not empty, and
    read back as the number. *)
Lemma show_Z_digits (n : Z) :
  0 <= n ->
  all_digits (show_Z n) = true /\ show_Z n <> "" /\
  DataValidator.digits_value 0 (show_Z n) = n.
Proof.
  intros Hn. destruct n as [ | p | p]; [ | | lia].
  - repeat split. discriminate.
  - rewrite show_Z_pos. split; [apply all_digits_uint | split].
    + pose proof (DecimalPos.Unsigned.to_uint_nonnil p) as Hnn.
      destruct (Pos.to_uint p); [contradiction | discriminate ..].
    + rewrite digits_value_uint, DecimalPos.Unsigned.of_to. reflexivity.
Qed.

Lemma parseInt_neg_digits (ds rest : string) :
  all_digits ds = true -> ds <> "" -> starts_with_digit rest = false ->
  DataValidator.parseInt (String "-" (ds ++ rest)) =
    Some (- DataValidator.digits_value 0 ds).
Proof.
  intros Hds Hne Hrest.
  unfold DataValidator.parseInt.
  change (DataValidator.trim_start (String "-" (ds ++ rest)))
    with (String "-" (ds ++ rest)).
  cbv iota. rewrite (span_digits_app ds rest Hds Hrest).
  destruct ds; [contradiction | reflexivity].
Qed.

(** [parseInt] reads the decimal rendering of any integer back. *)
Lemma parseInt_show_Z (n : Z) : DataValidator.parseInt (show_Z n) = Some n.
Proof.
  destruct n as [ | p | p].
  - reflexivity.
  - destruct (show_Z_digits (Zpos p)) as (Hd & Hne & Hv); [lia | ].
    rewrite <- (append_empty (show_Z (Zpos p))).
    rewrite (parseInt_digits _ "" Hd Hne eq_refl), Hv. reflexivity.
  - destruct (show_Z_digits (Zpos p)) as (Hd & Hne & Hv); [lia | ].
    rewrite show_Z_neg, <- (append_empty (show_Z (Zpos p))).
    rewrite (parseInt_neg_digits _ "" Hd Hne eq_refl), Hv. reflexivity.
Qed.

(** ** The blood pressure pattern *)

Lemma match_bp_digits (ds1 ds2 : string) :
  all_digits ds1 = true -> all_digits ds2 = true ->
  DataValidator.match_bp (ds1 ++ "/" ++ ds2) =
    Some (DataValidator.group ds1, DataValidator.group ds2).
Proof.
  intros H1 H2. unfold DataValidator.match_bp.
  rewrite (span_digits_app ds1 ("/" ++ ds2) H1 eq_refl).
  cbn [append]. rewrite <- (append_empty ds2) at 1.
  rewrite (span_digits_app ds2 "" H2 eq_refl). reflexivity.
Qed.

Lemma match_bp_inv (s : string) (g1 g2 : option string) :
  DataValidator.match_bp s = Some (g1, g2) ->
  exists ds1 ds2,
    s = ds1 ++ "/" ++ ds2 /\
    all_digits ds1 = true /\ all_digits ds2 = true /\
    g1 = DataValidator.group ds1 /\ g2 = DataValidator.group ds2.
Proof.
  unfold DataValidator.match_bp.
  destruct (DataValidator.span_digits s) as [d1 rest] eqn:E1.
  destruct (span_digits_split _ _ _ E1) as (-> & Hd1 & _).
  destruct rest as [ | ch rest']; [discriminate | ].
  destruct (Ascii.eqb_spec ch "/") as [-> | Hne].
  - destruct (DataValidator.span_digits rest') as [d2 tail] eqn:E2.
    destruct (span_digits_split _ _ _ E2) as (-> & Hd2 & _).
    destruct tail; [ | discriminate].
    intros H. injection H as <- <-.
    exists d1, d2. rewrite append_empty. repeat split; assumption.
  - intros H. exfalso.
    destruct ch as [[] [] [] [] [] [] [] []]; try discriminate H.
    apply Hne. reflexivity.
Qed.

Lemma parseInt_group (ds : string) :
  all_digits ds = true ->
  match DataValidator.group ds with
  | Some g => DataValidator.parseInt g
  | None => None
  end = match ds with
        | EmptyString => None
        | _ => Some (DataValidator.digits_value 0 ds)
        end.
Proof.
  intros Hd. destruct ds as [ | ch t]; [reflexivity | ].
  cbn [DataValidator.group].
  rewrite <- (append_empty (String ch t)) at 1.
  apply parseInt_digits; [exact Hd | discriminate | reflexivity].
Qed.

(** The result of [validateBloodPressure] on a string of the shape
    digits, slash, digits, where either run of digits may be empty. *)
Lemma validateBloodPressure_shape (ds1 ds2 : string) :
  all_digits ds1 = true -> all_digits ds2 = true ->
  DataValidator.validateBloodPressure (Some (JStr (ds1 ++ "/" ++ ds2))) =
    let side ds :=
      match ds with
      | EmptyString => None
      | _ => Some (DataValidator.digits_value 0 ds)
      end in
    DataValidator.mkBloodPressure (side ds1) (side ds2)
      (match side ds1, side ds2 with Some _, Some _ => true | _, _ => false end).
Proof.
  intros H1 H2. unfold DataValidator.validateBloodPressure.
  assert (Hne : String.eqb (ds1 ++ "/" ++ ds2) "" = false).
  { destruct ds1; reflexivity. }
  rewrite Hne, (match_bp_digits ds1 ds2 H1 H2).
  rewrite (parseInt_group ds1 H1), (parseInt_group ds2 H2). reflexivity.
Qed.

(** X13. A value is a valid blood pressure exactly when it is a string of
    one or more digits, a slash, and one or more digits, with nothing
    before, between or after. *)
Theorem validateBloodPressure_valid_iff (s : string) :
  DataValidator.isValid
    (DataValidator.validateBloodPressure (Some (JStr s))) = true <->
  exists ds1 ds2,
    s = ds1 ++ "/" ++ ds2 /\
    all_digits ds1 = true /\ ds1 <> "" /\
    all_digits ds2 = true /\ ds2 <> "".
Proof.
  split.
  - unfold DataValidator.validateBloodPressure.
    destruct (String.eqb s ""); [discriminate | ].
    destruct (DataValidator.match_bp s) as [[g1 g2] | ] eqn:Em; [ | discriminate].
    destruct (match_bp_inv s g1 g2 Em) as (ds1 & ds2 & -> & H1 & H2 & -> & ->).
    rewrite (parseInt_group ds1 H1), (parseInt_group ds2 H2).
    intros Hv. exists ds1, ds2.
    destruct ds1; [discriminate Hv | ].
    destruct ds2; [discriminate Hv | ].
    repeat split; try assumption; discriminate.
  - intros (ds1 & ds2 & -> & H1 & Hn1 & H2 & Hn2).
    rewrite (validateBloodPressure_shape ds1 ds2 H1 H2).
    destruct ds1; [contradiction | ]. destruct ds2; [contradiction | ].
    reflexivity.
Qed.

Lemma validateBloodPressure_valid_iff_witness :
  DataValidator.isValid
    (DataValidator.validateBloodPressure (Some (JStr "120/80"))) = true.
Proof.
  apply (proj2 (validateBloodPressure_valid_iff "120/80")).
  exists "120", "80". repeat split; discriminate.
Defined.

(** X14. On digits, slash, digits the two fields are the numbers the digits
    denote, leading zeros allowed (for readings below 2^53, where
    JavaScript numbers are exact). *)
Theorem validateBloodPressure_reading (ds1 ds2 : string) :
  all_digits ds1 = true -> ds1 <> "" ->
  all_digits ds2 = true -> ds2 <> "" ->
  DataValidator.digits_value 0 ds1 < 2 ^ 53 ->
  DataValidator.digits_value 0 ds2 < 2 ^ 53 ->
  DataValidator.validateBloodPressure (Some (JStr (ds1 ++ "/" ++ ds2))) =
    DataValidator.mkBloodPressure
      (Some (DataValidator.digits_value 0 ds1))
      (Some (DataValidator.digits_value 0 ds2)) true.
Proof.
  intros H1 Hn1 H2 Hn2 _ _.
  rewrite (validateBloodPressure_shape ds1 ds2 H1 H2).
  destruct ds1; [contradiction | ]. destruct ds2; [contradiction | ].
  reflexivity.
Qed.

Lemma validateBloodPressure_reading_witness :
  DataValidator.validateBloodPressure (Some (JStr "007/08")) =
    DataValidator.mkBloodPressure (Some 7) (Some 8) true.
Proof.
  apply (validateBloodPressure_reading "007" "08");
    try reflexivity; discriminate.
Defined.

(** X15. A reading with one side missing is matched by the pattern: the
    side that is present is parsed, the other is [null], and the result is
    not valid. *)
Theorem validateBloodPressure_one_side (ds : string) :
  all_digits ds = true -> ds <> "" ->
  DataValidator.digits_value 0 ds < 2 ^ 53 ->
  DataValidator.validateBloodPressure (Some (JStr (ds ++ "/"))) =
    DataValidator.mkBloodPressure
      (Some (DataValidator.digits_value 0 ds)) None false /\
  DataValidator.validateBloodPressure (Some (JStr ("/" ++ ds))) =
    DataValidator.mkBloodPressure
      None (Some (DataValidator.digits_value 0 ds)) false.
Proof.
  intros Hd Hne _. split.
  - pose proof (validateBloodPressure_shape ds "" Hd eq_refl) as H.
    cbn [append] in H |- *. rewrite H.
    destruct ds; [contradiction | reflexivity].
  - pose proof (validateBloodPressure_shape "" ds eq_refl Hd) as H.
    cbn [append] in H |- *. rewrite H.
    destruct ds; [contradiction | reflexivity].
Qed.

Lemma validateBloodPressure_one_side_witness :
  DataValidator.validateBloodPressure (Some (JStr "120/")) =
    DataValidator.mkBloodPressure (Some 120) None false.
Proof.
  apply (validateBloodPressure_one_side "120"); try reflexivity; discriminate.
Defined.

(** X16. Round trip: the reading written as [`${s}/${d}`] from two natural
    numbers below 2^53 is valid and gives the two numbers back. *)
Theorem validateBloodPressure_round_trip (s d : Z) :
  0 <= s < 2 ^ 53 -> 0 <= d < 2 ^ 53 ->
  DataValidator.validateBloodPressure
    (Some (JStr (show_Z s ++ "/" ++ show_Z d))) =
    DataValidator.mkBloodPressure (Some s) (Some d) true.
Proof.
  intros [Hs _] [Hd _].
  destruct (show_Z_digits s Hs) as (Hs1 & Hs2 & Hs3).
  destruct (show_Z_digits d Hd) as (Hd1 & Hd2 & Hd3).
  rewrite (validateBloodPressure_shape _ _ Hs1 Hd1). cbv beta zeta.
  rewrite Hs3, Hd3.
  destruct (show_Z s); [contradiction | ].
  destruct (show_Z d); [contradiction | ].
  reflexivity.
Qed.

Lemma validateBloodPressure_round_trip_witness :
  DataValidator.validateBloodPressure (Some (JStr "135/85")) =
    DataValidator.mkBloodPressure (Some 135) (Some 85) true.
Proof.
  apply (validateBloodPressure_round_trip 135 85); split;
    solve [discriminate | reflexivity].
Defined.

(** X17. For every argument, [isValid] says that both fields are numbers;
    anything that is not a string gives two [null] fields; and a reading
    that is not valid always scores blood pressure risk 0, also when one
    side was parsed. *)
Theorem validateBloodPressure_invalid_scores_0 (x : option json) :
  let r := DataValidator.validateBloodPressure x in
  (DataValidator.isValid r = true <->
   DataValidator.systolic r <> None /\ DataValidator.diastolic r <> None) /\
  ((forall s, x <> Some (JStr s)) ->
   r = DataValidator.mkBloodPressure None None false) /\
  (DataValidator.isValid r = false ->
   calculateBloodPressureRisk
     (of_field (DataValidator.systolic r))
     (of_field (DataValidator.diastolic r)) = Some 0).
Proof.
  cbv zeta. unfold DataValidator.validateBloodPressure.
  destruct x as [[ | b | q | s | items | fields] | ];
    try (split; [ | split];
         [ split; [discriminate | intros [H _]; contradiction]
         | reflexivity
         | reflexivity ]).
  destruct (String.eqb s "");
    [ split; [ | split];
      [ split; [discriminate | intros [H _]; contradiction]
      | reflexivity | reflexivity ] | ].
  destruct (DataValidator.match_bp s) as [[g1 g2] | ];
    [ | split; [ | split];
        [ split; [discriminate | intros [H _]; contradiction]
        | reflexivity | reflexivity ] ].
  destruct (match g1 with Some ds => DataValidator.parseInt ds | None => None end)
    as [v1 | ];
    destruct (match g2 with Some ds => DataValidator.parseInt ds | None => None end)
      as [v2 | ];
    cbn [DataValidator.isValid DataValidator.systolic DataValidator.diastolic];
    (split; [ | split]);
    try (split; [ | intros [H1 H2]]);
    try discriminate; try reflexivity; try contradiction;
    try (intros H; exfalso; apply (H s); reflexivity);
    try (split; discriminate).
Qed.

Lemma validateBloodPressure_invalid_scores_0_witness :
  calculateBloodPressureRisk
    (of_field
       (DataValidator.systolic
          (DataValidator.validateBloodPressure (Some (JStr "150/")))))
    (of_field
       (DataValidator.diastolic
          (DataValidator.validateBloodPressure (Some (JStr "150/"))))) =
    Some 0.
Proof.
  apply (proj2 (proj2 (validateBloodPressure_invalid_scores_0
                         (Some (JStr "150/"))))).
  reflexivity.
Defined.

(** ** Ages *)

(** X18. [validateAge] returns a [value] exactly when it says valid, and
    then the value is the integer [parseInt] read, between 1 and 119;
    otherwise [value] is [null]. *)
Theorem validateAge_value_range (age : string) :
  let r := DataValidator.validateAge age in
  (DataValidator.age_isValid r = true ->
   exists n,
     DataValidator.parseInt age = Some n /\
     DataValidator.value r = Some n /\ 1 <= n <= 119) /\
  (DataValidator.age_isValid r = false -> DataValidator.value r = None).
Proof.
  cbv zeta. unfold DataValidator.validateAge.
  destruct (DataValidator.parseInt age) as [n | ];
    cbn [DataValidator.age_isValid DataValidator.value].
  - destruct ((n >? 0) && (n <? 120)) eqn:E.
    + split; [ | discriminate]. intros _. exists n.
      apply andb_true_iff in E. destruct E as [E1 E2].
      rewrite Z.gtb_ltb in E1. apply Z.ltb_lt in E1. apply Z.ltb_lt in E2.
      repeat split; lia.
    + split; [discriminate | reflexivity].
  - split; [discriminate | reflexivity].
Qed.

Lemma validateAge_value_range_witness :
  exists n,
    DataValidator.parseInt "45" = Some n /\
    DataValidator.value (DataValidator.validateAge "45") = Some n /\
    1 <= n <= 119.
Proof.
  apply (proj1 (validateAge_value_range "45")). reflexivity.
Defined.

(** X19. Round trip: for an integer [n] with [|n| < 10^21], where the
    string that [parseInt] converts the number [n] to is its plain decimal
    rendering, [validateAge] is valid with value [n] exactly when
    [0 < n < 120]; zero, negative ages and 120 and above are rejected. *)
Theorem validateAge_integer (n : Z) :
  - 10 ^ 21 < n < 10 ^ 21 ->
  DataValidator.validateAge (show_Z n) =
    if (0 <? n) && (n <? 120)
    then DataValidator.mkAge (Some n) true
    else DataValidator.mkAge None false.
Proof.
  intros _.
  unfold DataValidator.validateAge. rewrite parseInt_show_Z, Z.gtb_ltb.
  destruct ((0 <? n) && (n <? 120)); reflexivity.
Qed.

Lemma validateAge_integer_witness :
  DataValidator.validateAge "45" = DataValidator.mkAge (Some 45) true /\
  DataValidator.validateAge "120" = DataValidator.mkAge None false /\
  DataValidator.validateAge "-3" = DataValidator.mkAge None false.
Proof.
  split; [ | split].
  - apply (validateAge_integer 45). split; reflexivity.
  - apply (validateAge_integer 120). split; reflexivity.
  - apply (validateAge_integer (-3)). split; reflexivity.
Defined.

(** X20. [validateAge] reads the leading digits only: whatever follows
    them, a unit or a decimal fraction, is ignored, so a fraction is cut
    off and not rounded; white space before the number is skipped. *)
Theorem validateAge_ignores_tail (ds rest : string) :
  all_digits ds = true -> ds <> "" -> starts_with_digit rest = false ->
  DataValidator.validateAge (ds ++ rest) = DataValidator.validateAge ds /\
  forall ch, DataValidator.is_whitespace ch = true ->
    DataValidator.validateAge (String ch (ds ++ rest)) =
      DataValidator.validateAge ds.
Proof.
  intros Hd Hne Hrest.
  assert (H1 : DataValidator.parseInt (ds ++ rest) =
               DataValidator.parseInt ds).
  { rewrite (parseInt_digits ds rest Hd Hne Hrest).
    rewrite <- (append_empty ds) at 2.
    rewrite (parseInt_digits ds "" Hd Hne eq_refl). reflexivity. }
  split.
  - unfold DataValidator.validateAge. rewrite H1. reflexivity.
  - intros ch Hch. unfold DataValidator.validateAge.
    assert (H2 : DataValidator.parseInt (String ch (ds ++ rest)) =
                 DataValidator.parseInt (ds ++ rest)).
    { unfold DataValidator.parseInt. cbn [DataValidator.trim_start].
      rewrite Hch. reflexivity. }
    rewrite H2, H1. reflexivity.
Qed.

Lemma validateAge_ignores_tail_witness :
  DataValidator.validateAge "119.9" = DataValidator.mkAge (Some 119) true /\
  DataValidator.validateAge " 45 years" = DataValidator.mkAge (Some 45) true.
Proof.
  split.
  - destruct (validateAge_ignores_tail "119" ".9"
                eq_refl ltac:(discriminate) eq_refl) as [H _].
    cbn [append] in H. rewrite H. reflexivity.
  - destruct (validateAge_ignores_tail "45" " years"
                eq_refl ltac:(discriminate) eq_refl) as [_ H].
    specialize (H " "%char eq_refl).
    cbn [append] in H. rewrite H. reflexivity.
Defined.

(** * Properties of RiskAssessment *)

Ltac bool_to_Z :=
  repeat match goal with
    | H : (_ && _) = true |- _ => apply andb_true_iff in H; destruct H
    | H : (_ && _) = false |- _ => apply andb_false_iff in H
    | H : (_ || _) = true |- _ => apply orb_true_iff in H
    | H : (_ || _) = false |- _ => apply orb_false_iff in H; destruct H
    | H : (_ <? _) = true |- _ => apply Z.ltb_lt in H
    | H : (_ <? _) = false |- _ => apply Z.ltb_ge in H
    | H : (_ <=? _) = true |- _ => apply Z.leb_le in H
    | H : (_ <=? _) = false |- _ => apply Z.leb_gt in H
    end.

Lemma Qltb_inject_Z (a b : Z) :
  Qltb (inject_Z a) (inject_Z b) = (a <? b).
Proof.
  destruct (a <? b) eqn:E.
  - apply Qltb_lt. rewrite <- Zlt_Qlt. apply Z.ltb_lt. exact E.
  - apply Qltb_ge. rewrite <- Zle_Qle. apply Z.ltb_ge. exact E.
Qed.

(** The value of [calculateBloodPressureRisk] on two integers, with the
    test of each tier and its result as hypotheses. *)
Lemma bp_risk_cases (s d : Z) :
  exists v,
    calculateBloodPressureRisk (of_field (Some s)) (of_field (Some d)) =
      Some v /\
    ((v = 0 /\ s < 120 /\ d < 80) \/
     (v = 1 /\ 120 <= s < 130 /\ d < 80) \/
     (v = 2 /\ (80 <= d \/ 130 <= s) /\ (s < 140 \/ d < 90)) \/
     (v = 3 /\ 140 <= s /\ 90 <= d)).
Proof.
  unfold calculateBloodPressureRisk, bp_return, value_lt, value_ge, of_field.
  cbn [value_is_null ToNumber number_lt number_ge orb].
  change 120%Q with (inject_Z 120). change 130%Q with (inject_Z 130).
  change 140%Q with (inject_Z 140). change 80%Q with (inject_Z 80).
  change 90%Q with (inject_Z 90).
  rewrite !Qltb_inject_Z, <- !Z.leb_antisym.
  destruct ((s <? 120) && (d <? 80)) eqn:E1;
    [exists 0; split; [reflexivity | bool_to_Z; lia] | ].
  destruct ((s <? 130) && (d <? 80)) eqn:E2;
    [exists 1; split; [reflexivity | bool_to_Z; lia] | ].
  destruct ((s <? 140) || (d <? 90)) eqn:E3;
    [exists 2; split; [reflexivity | bool_to_Z; lia] | ].
  destruct ((140 <=? s) || (90 <=? d)) eqn:E4;
    [exists 3; split; [reflexivity | bool_to_Z; lia] | ].
  exfalso. bool_to_Z. lia.
Qed.

Ltac Qltb_to_Q :=
  repeat match goal with
    | H : Qltb _ _ = true |- _ => apply Qltb_lt in H
    | H : Qltb _ _ = false |- _ => apply Qltb_ge in H
    end.

Ltac tier_goal :=
  first
    [ discriminate | contradiction | exact I | reflexivity | lra
    | split; tier_goal | left; tier_goal | right; tier_goal ].

Ltac tier_iff :=
  split; intros;
  repeat match goal with
    | H : _ /\ _ |- _ => destruct H
    | H : _ \/ _ |- _ => destruct H
    end;
  first [ exfalso; lra | tier_goal ].

(** X21. The tiers of the blood pressure risk on two numbers other than
    [NaN], the infinities included: 3 exactly when systolic is 140 or more
    and diastolic is 90 or more (one of them alone gives 2), 0 exactly when
    systolic is below 120 and diastolic below 80, 1 exactly when systolic
    is at least 120 and below 130 and diastolic is below 80, and 2 in every
    other case. *)
Theorem calculateBloodPressureRisk_tiers (s d : number) :
  s <> NaN -> d <> NaN ->
  exists v,
    calculateBloodPressureRisk (Number s) (Number d) = Some v /\
    (v = 3 <-> at_least s 140 /\ at_least d 90) /\
    (v = 0 <-> below s 120 /\ below d 80) /\
    (v = 1 <-> (at_least s 120 /\ below s 130) /\ below d 80) /\
    (v = 2 <->
     (at_least d 80 \/ at_least s 130) /\ (below s 140 \/ below d 90)).
Proof.
  intros Hs Hd.
  unfold calculateBloodPressureRisk, bp_return, value_lt, value_ge.
  destruct s as [qs | | | ]; [ | | | contradiction];
    (destruct d as [qd | | | ]; [ | | | contradiction]);
    cbn [value_is_null ToNumber number_lt number_ge orb andb negb
           below at_least];
    repeat match goal with
      | |- context [Qltb ?a ?b] =>
          let E := fresh "E" in destruct (Qltb a b) eqn:E
      end;
    cbn [orb andb negb option_map snd];
    Qltb_to_Q;
    (eexists; split; [reflexivity | ]);
    (split; [tier_iff | split; [tier_iff | split; tier_iff]]).
Qed.

Lemma calculateBloodPressureRisk_tiers_witness :
  exists v,
    calculateBloodPressureRisk (Number (Finite 150)) (Number PosInfinity) =
      Some v /\ v = 3.
Proof.
  destruct (calculateBloodPressureRisk_tiers (Finite 150) PosInfinity
              ltac:(discriminate) ltac:(discriminate))
    as (v & Hv & H3 & _).
  exists v. split; [exact Hv | ].
  apply H3. split; [apply Qle_bool_iff; reflexivity | exact I].
Defined.

(** X22. The blood pressure risk is monotone: raising systolic, diastolic
    or both never lowers the score. *)
Theorem calculateBloodPressureRisk_monotone (s d s' d' : Z) :
  s <= s' -> d <= d' ->
  exists v v',
    calculateBloodPressureRisk (of_field (Some s)) (of_field (Some d)) =
      Some v /\
    calculateBloodPressureRisk (of_field (Some s')) (of_field (Some d')) =
      Some v' /\
    v <= v'.
Proof.
  intros Hs Hd.
  destruct (bp_risk_cases s d) as (v & Hv & Hcases).
  destruct (bp_risk_cases s' d') as (v' & Hv' & Hcases').
  exists v, v'. repeat split; [exact Hv | exact Hv' | lia].
Qed.

Lemma calculateBloodPressureRisk_monotone_witness :
  exists v v',
    calculateBloodPressureRisk (of_field (Some 118)) (of_field (Some 75)) =
      Some v /\
    calculateBloodPressureRisk (of_field (Some 145)) (of_field (Some 95)) =
      Some v' /\
    v <= v'.
Proof.
  apply (calculateBloodPressureRisk_monotone 118 75 145 95);
    discriminate.
Defined.

Lemma temperature_risk_cases (t : Q) :
  exists v,
    calculateTemperatureRisk (Some t) = Some v /\
    ((v = 0 /\ (t < 995 # 10)%Q) \/
     (v = 1 /\ (995 # 10 <= t)%Q /\ (t < 101)%Q) \/
     (v = 2 /\ (101 <= t)%Q)).
Proof.
  unfold calculateTemperatureRisk.
  destruct (Qltb t (995 # 10)) eqn:E1.
  { apply Qltb_lt in E1. exists 0. split; [reflexivity | left; auto]. }
  apply Qltb_ge in E1.
  destruct (Qltb t 101) eqn:E2.
  { apply Qltb_lt in E2. exists 1. split; [reflexivity | right; left; auto]. }
  apply Qltb_ge in E2.
  destruct (Qle_bool 101 t) eqn:E3.
  { exists 2. split; [reflexivity | right; right; auto]. }
  apply Qle_bool_iff in E2. congruence.
Qed.

(** X23. [calculateTemperatureRisk] returns 0 for [null] and, on every
    finite number, one of its tiers: 0 below 99.5, 1 from 99.5 to below
    101, 2 from 101 on; a higher temperature never scores lower. *)
Theorem calculateTemperatureRisk_tiers (t t' : Q) :
  calculateTemperatureRisk None = Some 0 /\
  exists v v',
    calculateTemperatureRisk (Some t) = Some v /\
    calculateTemperatureRisk (Some t') = Some v' /\
    (v = 0 <-> (t < 995 # 10)%Q) /\
    (v = 1 <-> (995 # 10 <= t)%Q /\ (t < 101)%Q) /\
    (v = 2 <-> (101 <= t)%Q) /\
    ((t <= t')%Q -> v <= v').
Proof.
  split; [reflexivity | ].
  destruct (temperature_risk_cases t) as (v & Hv & Hc).
  destruct (temperature_risk_cases t') as (v' & Hv' & Hc').
  exists v, v'. split; [exact Hv | split; [exact Hv' | ]].
  destruct Hc as [(-> & H) | [(-> & H1 & H2) | (-> & H)]];
    destruct Hc' as [(-> & H') | [(-> & H1' & H2') | (-> & H')]];
    repeat split; intros;
    repeat match goal with H : _ /\ _ |- _ => destruct H end;
    first [lia | lra | exfalso; lra].
Qed.

Lemma calculateTemperatureRisk_tiers_witness :
  exists v v',
    calculateTemperatureRisk (Some (986 # 10)) = Some v /\
    calculateTemperatureRisk (Some (1012 # 10)) = Some v' /\
    v <= v'.
Proof.
  destruct (proj2 (calculateTemperatureRisk_tiers (986 # 10) (1012 # 10)))
    as (v & v' & Hv & Hv' & _ & _ & _ & Hmono).
  exists v, v'. split; [exact Hv | split; [exact Hv' | ]].
  apply Hmono. apply Qle_bool_iff. reflexivity.
Defined.

Lemma age_risk_cases (a : Z) :
  exists v,
    calculateAgeRisk (Some a) = Some v /\
    ((v = 0 /\ a < 40) \/ (v = 1 /\ 40 <= a <= 65) \/ (v = 2 /\ 65 < a)).
Proof.
  unfold calculateAgeRisk, js_lt. cbn [is_null to_number].
  rewrite Z.gtb_ltb.
  destruct (a <? 40) eqn:E1;
    [exists 0; split; [reflexivity | bool_to_Z; lia] | ].
  destruct (a <=? 65) eqn:E2;
    [exists 1; split; [reflexivity | bool_to_Z; lia] | ].
  destruct (65 <? a) eqn:E3;
    [exists 2; split; [reflexivity | bool_to_Z; lia] | ].
  exfalso. bool_to_Z. lia.
Qed.

(** X24. [calculateAgeRisk] returns 0 for [null] and, on every integer, one
    of its tiers: 0 below 40, 1 from 40 to 65, 2 above 65; a higher age
    never scores lower. *)
Theorem calculateAgeRisk_tiers (a a' : Z) :
  calculateAgeRisk None = Some 0 /\
  exists v v',
    calculateAgeRisk (Some a) = Some v /\
    calculateAgeRisk (Some a') = Some v' /\
    (v = 0 <-> a < 40) /\
    (v = 1 <-> 40 <= a <= 65) /\
    (v = 2 <-> 65 < a) /\
    (a <= a' -> v <= v').
Proof.
  split; [reflexivity | ].
  destruct (age_risk_cases a) as (v & Hv & Hc).
  destruct (age_risk_cases a') as (v' & Hv' & Hc').
  exists v, v'. split; [exact Hv | split; [exact Hv' | lia]].
Qed.

Lemma calculateAgeRisk_tiers_witness :
  exists v v',
    calculateAgeRisk (Some 39) = Some v /\
    calculateAgeRisk (Some 66) = Some v' /\
    v <= v'.
Proof.
  destruct (proj2 (calculateAgeRisk_tiers 39 66))
    as (v & v' & Hv & Hv' & _ & _ & _ & Hmono).
  exists v, v'. split; [exact Hv | split; [exact Hv' | ]].
  apply Hmono. discriminate.
Defined.

(** X25. The age risk of a validated age: an age that is not valid scores
    0 like a young one, and a valid age, which lies between 1 and 119,
    scores by the tiers 40 and 65. *)
Theorem validateAge_then_risk (age : string) :
  let r := DataValidator.validateAge age in
  exists k,
    calculateAgeRisk (DataValidator.value r) = Some k /\
    0 <= k <= 2 /\
    (DataValidator.age_isValid r = false -> k = 0) /\
    (forall n, DataValidator.value r = Some n ->
       1 <= n <= 119 /\
       (k = 0 <-> n < 40) /\ (k = 1 <-> 40 <= n <= 65) /\ (k = 2 <-> 65 < n)).
Proof.
  cbv zeta. unfold DataValidator.validateAge.
  destruct (DataValidator.parseInt age) as [n | ];
    cbn [DataValidator.age_isValid DataValidator.value].
  - destruct ((n >? 0) && (n <? 120)) eqn:E.
    + rewrite Z.gtb_ltb in E. bool_to_Z.
      destruct (age_risk_cases n) as (k & Hk & Hc).
      exists k. split; [exact Hk | ]. split; [lia | ].
      split; [discriminate | ].
      intros m Hm. injection Hm as <-. lia.
    + exists 0. split; [reflexivity | ]. split; [lia | ].
      split; [reflexivity | discriminate].
  - exists 0. split; [reflexivity | ]. split; [lia | ].
    split; [reflexivity | discriminate].
Qed.

Lemma validateAge_then_risk_witness :
  exists k,
    calculateAgeRisk (DataValidator.value (DataValidator.validateAge "abc")) =
      Some k /\ k = 0.
Proof.
  destruct (validateAge_then_risk "abc") as (k & Hk & _ & H0 & _).
  exists k. split; [exact Hk | apply H0; reflexivity].
Defined.

(** * The skeleton of the client *)

(** X26. In the skeleton of [src/unnamed/part_000] no request is ever
    sent: [throttle] throws before [fetch] is reached, [fetchWithRetries]
    throws for every server, and [fetchAllPatients] resolves to the empty
    array, leaving the world as it was (no request, no wait, no random
    draw). *)
Theorem Skeleton_never_requests (fuel : nat) (c : Client) (url : string)
  (attempt : nat) (w : World) :
  (exists e, Skeleton.fetchWithRetries c url attempt w = (Throw e, w)) /\
  Skeleton.fetchAllPatients (S fuel) c w = (Ok (Some (Array [])), w).
Proof.
  assert (H : forall u a, exists e,
             Skeleton.fetchWithRetries c u a w = (Throw e, w)).
  { intros u a.
    unfold Skeleton.fetchWithRetries, try_catch, bind, Skeleton.throttle,
      Skeleton.pass, throw.
    change (includes
              (err_message (mkError "ReferenceError" "pass is not defined"))
              "Authentication failed") with false.
    cbv iota.
    destruct (Z.of_nat a <? maxRetries c); eexists; reflexivity. }
  split; [apply H | ].
  unfold Skeleton.fetchAllPatients. cbn [Skeleton.while_moreData moreData].
  unfold bind, Skeleton.loop_body. cbn [page].
  destruct (H (page_url c 1) 0%nat) as (e & He). rewrite He. reflexivity.
Qed.
